(** * Product scraper and ad composer (src/index.py)

    A shallow embedding of the FastAPI service in [src/index.py]:
    the extractor [scrape_amazon_product], the log writer [save_to_csv],
    the audience table [get_target_description], the ad composer
    [generate_simple_ad] and the endpoint [create_ad].

    Python values are modelled as follows.
    - [str] is [string]; a character is a code point below 256.
    - [None]-or-string is [option string].
    - a [dict] used as a map is a [gmap] with string keys; a [dict] with a
      fixed set of keys is a record.
    - an exception is a value of [exn]; code that prints, writes the log file
      or raises runs in the monad [Py], which threads the process state and
      keeps the state changes made before a raise.
    - a file is the list of its bytes; text written to it is encoded as
      UTF-8 and goes to the end of the file. *)

From Stdlib Require Import Ascii String List Arith Lia Bool.
From Stdlib.Strings Require Import Byte.
From stdpp Require Import base option gmap strings list fin_maps.


(** ** Python string primitives *)

Module PyStr.

(** [s.startswith(p)] *)
Fixpoint startswith (p s : string) : bool :=
  match p, s with
  | EmptyString, _ => true
  | String a p', String b s' => if Ascii.eqb a b then startswith p' s' else false
  | String _ _, EmptyString => false
  end.

(** [sub in s] *)
Fixpoint contains (sub s : string) : bool :=
  match s with
  | EmptyString => startswith sub EmptyString
  | String _ s' => startswith sub s || contains sub s'
  end.

(** Scanner behind [s.replace(old, new)] for a non-empty [old]: the
    leftmost match is replaced and the scan resumes after it, so
    [skip] counts the characters of the current match still to drop. *)
Fixpoint replace_scan (old new : string) (skip : nat) (s : string) : string :=
  match s with
  | EmptyString => EmptyString
  | String c s' =>
      match skip with
      | S k => replace_scan old new k s'
      | O =>
          if startswith old s
          then new +:+ replace_scan old new (String.length old - 1) s'
          else String c (replace_scan old new 0 s')
      end
  end.

(** With an empty [old] Python puts [new] before every character and at
    the end. *)
Fixpoint intersperse (new s : string) : string :=
  match s with
  | EmptyString => new
  | String c s' => new +:+ String c (intersperse new s')
  end.

(** [s.replace(old, new)] *)
Definition replace (old new s : string) : string :=
  match old with
  | EmptyString => intersperse new s
  | String _ _ => replace_scan old new 0 s
  end.

(** Scanner behind [s.split(sep)] for a non-empty [sep]; [cur] is the
    segment read so far. *)
Fixpoint split_scan (sep : string) (skip : nat) (cur : string) (s : string)
  : list string :=
  match s with
  | EmptyString => [cur]
  | String c s' =>
      match skip with
      | S k => split_scan sep k cur s'
      | O =>
          if startswith sep s
          then cur :: split_scan sep (String.length sep - 1) EmptyString s'
          else split_scan sep 0 (cur +:+ String c EmptyString) s'
      end
  end.

(** [s.split(sep)]; Python raises [ValueError] on an empty separator,
    which no call of the program passes. *)
Definition split (sep s : string) : list string := split_scan sep 0 EmptyString s.

(** [c.isspace()] for a code point below 256. *)
Definition isspace (c : ascii) : bool :=
  let n := nat_of_ascii c in
  ((9 <=? n) && (n <=? 13)) || ((28 <=? n) && (n <=? 32))
  || (n =? 133) || (n =? 160).

Fixpoint lstrip (s : string) : string :=
  match s with
  | EmptyString => EmptyString
  | String c s' => if isspace c then lstrip s' else s
  end.

Fixpoint rstrip (s : string) : string :=
  match s with
  | EmptyString => EmptyString
  | String c s' =>
      match rstrip s' with
      | EmptyString => if isspace c then EmptyString else String c EmptyString
      | r => String c r
      end
  end.

(** [s.strip()] *)
Definition strip (s : string) : string := rstrip (lstrip s).

(** Truth value of a string: [if s:] holds for a non-empty [s]. *)
Definition truthy (s : string) : bool :=
  match s with EmptyString => false | String _ _ => true end.

(** [str(v)] / f-string interpolation of a value that is a string or [None]. *)
Definition str_of (v : option string) : string :=
  match v with Some s => s | None => "None" end.

End PyStr.

(** ** Exceptions, environment and process state *)

(** The exceptions the program sees: an ordinary Python error with its
    message, and FastAPI's [HTTPException]. *)
Inductive exn : Type :=
| PyError (msg : string)
| HTTPException (status_code : nat) (detail : string).

(** An element found by [select_one]: its [.text] and its [.attrs]. *)
Record Tag : Type := mkTag {
  text : string;
  attrs : gmap string string
}.

(** A parsed document, as far as the program looks at it: the first match
    of a CSS selector, or [None]. *)
Record Soup : Type := mkSoup {
  select_one : string -> option Tag
}.

(** The dictionary returned by [scrape_amazon_product]. *)
Record ProductRecord : Type := mkProductRecord {
  brandName : string;
  productName : string;
  productDescription : string;
  productImage : option string;
  productPrice : option string;
  productRating : option string
}.

(** The dictionary [product_data] handed to [save_to_csv]. *)
Record CsvData : Type := mkCsvData {
  title : string;
  rating : option string;
  price : option string;
  image : option string;
  description : option string;
  url : string
}.

(** The request model [AdRequest]. *)
Record AdRequest : Type := mkAdRequest {
  req_url : string;
  gender : string;
  ageGroup : string
}.

(** The dictionary returned by [create_ad]: the product record and [adCopy]. *)
Record AdResponse : Type := mkAdResponse {
  product : ProductRecord;
  adCopy : string
}.

(** What the libraries and the outside world answer.  None of it is code of
    the repository, so it is taken as given:
    - [http_get url headers] is [requests.get(url, headers=...)]: the
      response text, or the exception raised;
    - [html_parse text features] is [BeautifulSoup(text, features)];
    - [random_draw] is the number the random generator delivers to
      [random.choice];
    - [str_HTTPException] is [str] of an [HTTPException];
    - [repr_product] is the text printed for the product dictionary. *)
Record Env : Type := mkEnv {
  http_get : string -> gmap string string -> exn + string;
  html_parse : string -> string -> exn + Soup;
  random_draw : nat;
  str_HTTPException : nat -> string -> string;
  repr_product : ProductRecord -> string
}.

(** The process state: the files on disk (a file is the list of its bytes,
    whatever wrote them), the lines printed to standard output and the URLs
    requested from the network so far. *)
Record State : Type := mkState {
  files : gmap string (list byte);
  stdout : list string;
  fetched : list string
}.

(** ** The monad of Python computations *)

Definition Py (A : Type) : Type := State -> (exn + A) * State.

Definition ret {A : Type} (a : A) : Py A := fun s => (inr a, s).

Definition raise {A : Type} (e : exn) : Py A := fun s => (inl e, s).

Definition bind {A B : Type} (m : Py A) (k : A -> Py B) : Py B :=
  fun s =>
    match m s with
    | (inr a, s') => k a s'
    | (inl e, s') => (inl e, s')
    end.

(** [try: body  except Exception as error: handler error] *)
Definition try_except {A : Type} (body : Py A) (handler : exn -> Py A) : Py A :=
  fun s =>
    match body s with
    | (inr a, s') => (inr a, s')
    | (inl e, s') => handler e s'
    end.

(** A library call that returns or raises without touching the state. *)
Definition lift {A : Type} (r : exn + A) : Py A := fun s => (r, s).

Declare Scope py_scope.
Delimit Scope py_scope with py.
Notation "'do' x <- m ; k" := (bind m (fun x => k))
  (at level 10, x name, m at level 100, k at level 200) : py_scope.
Notation "m ;; k" := (bind m (fun _ => k))
  (at level 100, k at level 200, right associativity) : py_scope.

Local Open Scope py_scope.

(** [print(line)] *)
Definition print (line : string) : Py unit :=
  fun s => (inr tt, mkState (files s) (stdout s ++ [line]) (fetched s)).

(** [requests.get(url, headers=headers)], with the request recorded. *)
Definition requests_get (env : Env) (url : string) (headers : gmap string string)
  : Py string :=
  fun s => (http_get env url headers,
            mkState (files s) (stdout s) (fetched s ++ [url])).

(** [BeautifulSoup(text, features)] *)
Definition BeautifulSoup (env : Env) (text features : string) : Py Soup :=
  lift (html_parse env text features).

(** [seq[i]] *)
Definition getitem {A : Type} (seq : list A) (i : nat) : exn + A :=
  match seq !! i with
  | Some x => inr x
  | None => inl (PyError "list index out of range")
  end.

(** [str(error)] *)
Definition str_exn (env : Env) (error : exn) : string :=
  match error with
  | PyError msg => msg
  | HTTPException status_code detail => str_HTTPException env status_code detail
  end.

(** [x or default] for a string-or-[None] [x]. *)
Definition or_else (x : option string) (default : string) : string :=
  match x with
  | Some s => if PyStr.truthy s then s else default
  | None => default
  end.

(** ** save_to_csv *)

(** [os.path.isfile(filename)] *)
Definition os_path_isfile (filename : string) : Py bool :=
  fun s => (inr (bool_decide (is_Some (files s !! filename))), s).

(** [open(filename, mode=a)]: append mode creates a missing file, empty. *)
Definition open_append (filename : string) : Py unit :=
  fun s =>
    (inr tt,
     match files s !! filename with
     | Some _ => s
     | None => mkState (<[filename := []]> (files s)) (stdout s) (fetched s)
     end).

(** The bytes [encoding=utf-8] gives a character below 256: one byte below
    128, two bytes from 128 on. *)
Definition utf8_char (c : ascii) : list byte :=
  let n := nat_of_ascii c in
  if n <? 128
  then [byte_of_ascii c]
  else [byte_of_ascii (ascii_of_nat (192 + n / 64));
        byte_of_ascii (ascii_of_nat (128 + n mod 64))].

Fixpoint utf8_encode (s : string) : list byte :=
  match s with
  | EmptyString => []
  | String c s' => utf8_char c ++ utf8_encode s'
  end.

(** [file.write(text)] on the file opened for appending as [filename]: the
    encoded text goes after the bytes the file holds (the file is opened
    without newline translation, so line ends are written as they are). *)
Definition file_write (filename : string) (text : string) : Py unit :=
  fun s =>
    (inr tt,
     mkState (alter (fun content => content ++ utf8_encode text) filename (files s))
             (stdout s) (fetched s)).

(** How [csv.writer] writes a cell: [None] as the empty string. *)
Definition csv_cell (v : option string) : string :=
  match v with Some s => s | None => "" end.

(** The default dialect of [csv.writer]: the delimiter is the comma, the
    quote character is the double quote, a record ends with carriage return
    and line feed, and a field is quoted only when it has to be. *)
Definition quotechar : ascii := ascii_of_nat 34.

Definition lineterminator : string :=
  String (ascii_of_nat 13) (String (ascii_of_nat 10) EmptyString).

(** The characters that make a field quoted. *)
Definition needs_quoting (c : ascii) : bool :=
  Ascii.eqb c "," || Ascii.eqb c quotechar
  || Ascii.eqb c (ascii_of_nat 13) || Ascii.eqb c (ascii_of_nat 10).

Fixpoint any_char (P : ascii -> bool) (s : string) : bool :=
  match s with
  | EmptyString => false
  | String c s' => P c || any_char P s'
  end.

(** A quote character inside a quoted field is written twice. *)
Fixpoint double_quotes (s : string) : string :=
  match s with
  | EmptyString => EmptyString
  | String c s' =>
      if Ascii.eqb c quotechar
      then String quotechar (String quotechar (double_quotes s'))
      else String c (double_quotes s')
  end.

Definition csv_field (field : string) : string :=
  if any_char needs_quoting field
  then String quotechar (double_quotes field +:+ String quotechar EmptyString)
  else field.

Fixpoint csv_join (fields : list string) : string :=
  match fields with
  | [] => EmptyString
  | field :: rest =>
      match rest with
      | [] => field
      | _ :: _ => field +:+ "," +:+ csv_join rest
      end
  end.

(** The text of one record.  A record that would be empty (a single empty
    field) is written as an empty quoted field. *)
Definition csv_line (cells : list string) : string :=
  match csv_join (csv_field <$> cells), cells with
  | EmptyString, _ :: _ =>
      String quotechar (String quotechar EmptyString) +:+ lineterminator
  | joined, _ => joined +:+ lineterminator
  end.

(** [writer.writerow(row)] on the file opened as [filename]. *)
Definition writerow (filename : string) (row : list (option string)) : Py unit :=
  file_write filename (csv_line (csv_cell <$> row)).

Definition headers : list (option string) :=
  [Some "Title"; Some "Rating"; Some "Price"; Some "Image URL";
   Some "Description"; Some "Product URL"].

Definition save_to_csv (data : CsvData) (filename : string) : Py unit :=
  do file_exists <- os_path_isfile filename;
  open_append filename;;
  (if negb file_exists then writerow filename headers else ret tt);;
  writerow filename
    [Some (title data); rating data; price data; image data;
     description data; Some (url data)].

Definition default_filename : string := "product_details.csv".

(** ** scrape_amazon_product *)

Definition custom_headers : gmap string string :=
  {[ "user-agent" :=
     "Mozilla/5.0 (Macintosh; Intel Mac OS X 10_15_7) AppleWebKit/537.36 (KHTML, like Gecko) Chrome/131.0.0.0 Safari/537.36" ]}.

(** The five field lookups of the extractor (lines 44 to 58). *)
Definition scrape_title (soup : Soup) : string :=
  match select_one soup "#productTitle" with
  | Some title_element => PyStr.strip (text title_element)
  | None => "No title available"
  end.

Definition scrape_rating_text (soup : Soup) : option string :=
  match select_one soup "#acrPopover" with
  | Some rating_element => Some (default "" (attrs rating_element !! "title"))
  | None => None
  end.

Definition rating_of_text (rating_text : option string) : option string :=
  match rating_text with
  | Some t =>
      if PyStr.truthy t
      then Some (PyStr.strip (PyStr.replace "out of 5 stars" "" t))
      else None
  | None => None
  end.

Definition scrape_rating (soup : Soup) : option string :=
  rating_of_text (scrape_rating_text soup).

Definition scrape_price (soup : Soup) : option string :=
  match select_one soup "span.a-price span.a-offscreen" with
  | Some price_element => Some (PyStr.strip (text price_element))
  | None => None
  end.

Definition scrape_image (soup : Soup) : option string :=
  match select_one soup "#landingImage" with
  | Some image_element => attrs image_element !! "src"
  | None => None
  end.

Definition scrape_description (soup : Soup) : option string :=
  match select_one soup "#feature-bullets" with
  | Some description_element => Some (PyStr.strip (text description_element))
  | None => None
  end.

(** [url.split('//')[1].split('/')[0].replace('www.amazon', 'Amazon')] *)
Definition brand_name_of (url : string) : exn + string :=
  match getitem (PyStr.split "//" url) 1 with
  | inr rest =>
      match getitem (PyStr.split "/" rest) 0 with
      | inr host => inr (PyStr.replace "www.amazon" "Amazon" host)
      | inl e => inl e
      end
  | inl e => inl e
  end.

Definition scrape_amazon_product (env : Env) (url : string) : Py ProductRecord :=
  try_except
    (do response_text <- requests_get env url custom_headers;
     do soup <- BeautifulSoup env response_text "lxml";
     let title := scrape_title soup in
     let rating := scrape_rating soup in
     let price := scrape_price soup in
     let image := scrape_image soup in
     let description := scrape_description soup in
     do brand_name <- lift (brand_name_of url);
     let product_data := mkCsvData title rating price image description url in
     save_to_csv product_data default_filename;;
     ret {| brandName := brand_name;
            productName := title;
            productDescription := or_else description "No description available";
            productImage := image;
            productPrice := price;
            productRating := rating |})
    (fun error =>
       print ("Error scraping product data: " +:+ str_exn env error);;
       raise (HTTPException 500 "Failed to scrape the product data")).

(** ** get_target_description *)

Definition descriptions : gmap string (gmap string string) :=
  {[ "female" :=
       {[ "9-18" := "The ad should appeal to young girls with a focus on fun, color, and trendy designs.";
          "18-25" := "The ad should emphasize style, comfort, and empowerment, as young women in this age group often look for products that complement their personal style and lifestyle.";
          "25-40" := "For women in this age group, the ad should focus on a balance of comfort, elegance, and professional appeal.";
          "40-60" := "The ad should emphasize comfort, sophistication, and practicality, appealing to women who value quality and timeless style.";
          "60+" := "The ad should highlight comfort, elegance, and the products ability to bring relaxation and ease to daily life." ]};
     "male" :=
       {[ "9-18" := "The ad should appeal to young boys or teens, focusing on energy, coolness, and modern trends.";
          "18-25" := "The ad should focus on style, confidence, and boldness, appealing to young men who are exploring their identity and fashion preferences.";
          "25-40" := "For men in this age group, the ad should emphasize practicality, style, and versatility.";
          "40-60" := "The ad should appeal to men with a focus on quality, durability, and classic style, suitable for both personal and professional settings.";
          "60+" := "The ad should highlight comfort, ease of use, and thoughtful gifts for loved ones." ]};
     "others" :=
       {[ "*" := "The ad should emphasize inclusivity, comfort, and a sense of belonging, appealing to individuals of diverse identities who value style and self-expression across all age groups." ]} ]}.

(** [d[k]] on a dictionary; a missing key raises [KeyError]. *)
Definition dict_getitem {V : Type} (d : gmap string V) (k : string) : exn + V :=
  match d !! k with
  | Some v => inr v
  | None => inl (PyError ("'" +:+ k +:+ "'"))
  end.

Definition get_target_description (gender age_group : string) : exn + string :=
  if bool_decide (gender = "others")
  then match dict_getitem descriptions "others" with
       | inr d => dict_getitem d "*"
       | inl e => inl e
       end
  else inr (default "" (default ∅ (descriptions !! gender) !! age_group)).

(** ** generate_simple_ad *)

Definition newline : string := String (ascii_of_nat 10) EmptyString.

(** [f" Rated {rating} stars!" if rating else ""] *)
Definition rating_clause (product_data : ProductRecord) : string :=
  match productRating product_data with
  | Some r => if PyStr.truthy r then " Rated " +:+ r +:+ " stars!" else ""
  | None => ""
  end.

Definition ad_templates (product_data : ProductRecord) : list string :=
  let rating_text := rating_clause product_data in
  [ "Discover " +:+ productName product_data +:+ "! " +:+ rating_text
      +:+ " Available now at " +:+ PyStr.str_of (productPrice product_data) +:+ ".";
    "Introducing the amazing " +:+ productName product_data
      +:+ " - perfect for you! " +:+ rating_text;
    "Don't miss out on " +:+ productName product_data +:+ "! Get yours at "
      +:+ PyStr.str_of (productPrice product_data) +:+ ".";
    "Experience the excellence of " +:+ productName product_data +:+ "! "
      +:+ rating_text;
    "Transform your life with " +:+ productName product_data +:+ "! Now only "
      +:+ PyStr.str_of (productPrice product_data) +:+ "!" ].

(** [random.choice(seq)] when the generator delivers [draw]: the element at
    index [draw mod len(seq)]; an empty sequence raises [IndexError]. *)
Definition random_choice (draw : nat) (seq : list string) : exn + string :=
  match seq !! (draw mod length seq) with
  | Some x => inr x
  | None => inl (PyError "Cannot choose from an empty sequence")
  end.

Definition generate_simple_ad (draw : nat) (product_data : ProductRecord)
    (gender age_group : string) : exn + string :=
  match get_target_description gender age_group with
  | inl e => inl e
  | inr target_desc =>
      match random_choice draw (ad_templates product_data) with
      | inl e => inl e
      | inr base_ad =>
          if PyStr.truthy target_desc
          then inr (base_ad +:+ newline +:+ target_desc)
          else inr base_ad
      end
  end.

(** ** create_ad *)

Definition create_ad (env : Env) (request : AdRequest) : Py AdResponse :=
  if negb (PyStr.truthy (req_url request))
  then raise (HTTPException 400 "No URL provided")
  else
    try_except
      (print ("Received URL: " +:+ req_url request);;
       do product_data <- scrape_amazon_product env (req_url request);
       print ("Scraped Product Data: " +:+ repr_product env product_data);;
       do ad_copy <- lift (generate_simple_ad (random_draw env) product_data
                             (gender request) (ageGroup request));
       ret {| product := product_data; adCopy := ad_copy |})
      (fun error =>
         print ("Error generating ad: " +:+ str_exn env error);;
         raise (HTTPException 500 ("Error generating ad: " +:+ str_exn env error))).

(** ** Vocabulary of the statements *)

(** The bytes of one record with the given cells. *)
Definition record_bytes (cells : list string) : list byte :=
  utf8_encode (csv_line cells).

(** The bytes of a log made of complete records, one per row. *)
Definition log_of (rows : list (list string)) : list byte :=
  concat (record_bytes <$> rows).

(** The cells of the header row. *)
Definition header_row : list string :=
  ["Title"; "Rating"; "Price"; "Image URL"; "Description"; "Product URL"].

(** The bytes of the log before a data record is appended: what the file
    holds, or the header record when the file is created by this call. *)
Definition log_before (s : State) (filename : string) : list byte :=
  match files s !! filename with
  | Some content => content
  | None => record_bytes header_row
  end.

(** The record assembled at lines 74 to 81 from a parsed page and the brand. *)
Definition record_of (soup : Soup) (brand_name : string) : ProductRecord :=
  {| brandName := brand_name;
     productName := scrape_title soup;
     productDescription :=
       or_else (scrape_description soup) "No description available";
     productImage := scrape_image soup;
     productPrice := scrape_price soup;
     productRating := scrape_rating soup |}.

(** The cells of the row written for a parsed page fetched from [url]. *)
Definition csv_row_of (soup : Soup) (url : string) : list string :=
  [scrape_title soup; csv_cell (scrape_rating soup); csv_cell (scrape_price soup);
   csv_cell (scrape_image soup); csv_cell (scrape_description soup); url].

(** The three ways the body of the extractor raises, with the exception. *)
Definition scrape_failure (env : Env) (url : string) (cause : exn) : Prop :=
  http_get env url custom_headers = inl cause
  \/ (exists body,
        http_get env url custom_headers = inr body
        /\ html_parse env body "lxml" = inl cause)
  \/ (exists body soup,
        http_get env url custom_headers = inr body
        /\ html_parse env body "lxml" = inr soup
        /\ brand_name_of url = inl cause).

Definition scrape_error : exn :=
  HTTPException 500 "Failed to scrape the product data".

(** Characters of the numeric portion of a rating: digits and the point. *)
Definition numeric_char (c : ascii) : bool :=
  let n := nat_of_ascii c in
  ((48 <=? n) && (n <=? 57)) || (n =? 46).

Fixpoint all_chars (P : ascii -> bool) (s : string) : bool :=
  match s with
  | EmptyString => true
  | String c s' => P c && all_chars P s'
  end.

(** ** Sample pages and environments *)

Definition empty_soup : Soup := mkSoup (fun _ => None).

Definition rated_soup : Soup :=
  mkSoup (fun selector =>
            if String.eqb selector "#acrPopover"
            then Some (mkTag "" {[ "title" := "4.5 out of 5 stars" ]})
            else None).

(** A network that serves one page, parsed as [soup]. *)
Definition page_env (soup : Soup) : Env :=
  mkEnv (fun _ _ => inr "<html></html>")
        (fun _ _ => inr soup)
        0
        (fun _ detail => detail)
        (fun record => productName record).

(** A network that refuses every connection. *)
Definition offline_env : Env :=
  mkEnv (fun _ _ => inl (PyError "connection refused"))
        (fun _ _ => inr empty_soup)
        0
        (fun _ detail => detail)
        (fun record => productName record).

Definition fresh_state : State := mkState ∅ [] [].

(** A record as the extractor returns it, with the given rating and price. *)
Definition sample_record (rating price : option string) : ProductRecord :=
  mkProductRecord "Amazon.com" "Kettle" "No description available" None price rating.

(** The sentence of the table for [others]. *)
Definition universal_sentence : string :=
  "The ad should emphasize inclusivity, comfort, and a sense of belonging, appealing to individuals of diverse identities who value style and self-expression across all age groups.".

(** The cells [save_to_csv] writes for [data]. *)
Definition data_row (data : CsvData) : list string :=
  [title data; csv_cell (rating data); csv_cell (price data);
   csv_cell (image data); csv_cell (description data); url data].

(** Whether a string begins, or ends, with a whitespace character. *)
Definition starts_with_space (s : string) : bool :=
  match s with
  | EmptyString => false
  | String c _ => PyStr.isspace c
  end.

Fixpoint ends_with_space (s : string) : bool :=
  match s with
  | EmptyString => false
  | String c EmptyString => PyStr.isspace c
  | String _ s' => ends_with_space s'
  end.

Definition trimmed (s : string) : bool :=
  negb (starts_with_space s) && negb (ends_with_space s).

(** [s.endswith(suffix)] *)
Fixpoint endswith (suffix s : string) : bool :=
  match s with
  | EmptyString => String.eqb suffix EmptyString
  | String _ s' => String.eqb suffix s || endswith suffix s'
  end.

(** The record [product_data] with another rating, or another price. *)
Definition with_rating (product_data : ProductRecord) (rating : option string)
  : ProductRecord :=
  {| brandName := brandName product_data;
     productName := productName product_data;
     productDescription := productDescription product_data;
     productImage := productImage product_data;
     productPrice := productPrice product_data;
     productRating := rating |}.

Definition with_price (product_data : ProductRecord) (price : option string)
  : ProductRecord :=
  {| brandName := brandName product_data;
     productName := productName product_data;
     productDescription := productDescription product_data;
     productImage := productImage product_data;
     productPrice := price;
     productRating := productRating product_data |}.

(** The age groups of the table. *)
Definition age_groups : list string := ["9-18"; "18-25"; "25-40"; "40-60"; "60+"].

(** A page with a rating anchor that has no title attribute, an image anchor
    without [src], and a title anchor whose text is blank. *)
Definition bare_soup : Soup :=
  mkSoup (fun selector =>
            if String.eqb selector "#acrPopover" then Some (mkTag "" ∅)
            else if String.eqb selector "#landingImage" then Some (mkTag "" ∅)
            else if String.eqb selector "#productTitle" then Some (mkTag "   " ∅)
            else None).

(** A parser that rejects every document. *)
Definition broken_parser_env : Env :=
  mkEnv (fun _ _ => inr "<html></html>")
        (fun _ _ => inl (PyError "no parser"))
        0
        (fun _ detail => detail)
        (fun record => productName record).

Definition sample_data : CsvData :=
  mkCsvData "Kettle" (Some "4.5") None None None "https://www.amazon.com/dp/X".

(** A state whose log holds six cells on a last line without terminator. *)
Definition unterminated_state : State :=
  mkState {[ default_filename := list_byte_of_string "a,b,c,d,e,f" ]} [] [].

(** A state whose log holds the header record and one data record. *)
Definition logged_state : State :=
  mkState {[ default_filename :=
               log_of [header_row;
                       ["Mug"; "4.0"; "$5"; ""; ""; "https://www.amazon.com/dp/M"]] ]}
          [] [].

(** A page whose rating title has blanks on both sides. *)
Definition padded_soup : Soup :=
  mkSoup (fun selector =>
            if String.eqb selector "#acrPopover"
            then Some (mkTag "" {[ "title" := "  4.5 out of 5 stars " ]})
            else None).

(** * Properties *)

(** ** The string primitives on the program's own inputs *)

Example replace_suffix_ex :
  PyStr.replace "out of 5 stars" "" "4.5 out of 5 stars" = "4.5 ".
Proof. reflexivity. Qed.

Example split_scheme_ex :
  PyStr.split "//" "https://www.amazon.com/dp/X" = ["https:"; "www.amazon.com/dp/X"].
Proof. reflexivity. Qed.

Example split_trailing_ex : PyStr.split "//" "a//" = ["a"; ""].
Proof. reflexivity. Qed.

Example split_overlap_ex : PyStr.split "//" "a///b" = ["a"; "/b"].
Proof. reflexivity. Qed.

Example strip_ex : PyStr.strip "  4.5 " = "4.5".
Proof. reflexivity. Qed.

Example replace_overlap_ex : PyStr.replace "aa" "b" "aaaaa" = "bba".
Proof. reflexivity. Qed.

(** ** Lemmas on the string primitives *)

Lemma append_cons (c : ascii) (s t : string) : String c s +:+ t = String c (s +:+ t).
Proof. reflexivity. Qed.

Lemma append_nil_l (s : string) : "" +:+ s = s.
Proof. reflexivity. Qed.

Lemma append_nil_r (s : string) : s +:+ "" = s.
Proof. induction s as [|c s IH]; [reflexivity|]. by rewrite append_cons, IH. Qed.

Lemma append_assoc (s t u : string) : (s +:+ t) +:+ u = s +:+ (t +:+ u).
Proof. induction s as [|c s IH]; [reflexivity|]. by rewrite !append_cons, IH. Qed.

Lemma startswith_app (p s : string) : PyStr.startswith p (p +:+ s) = true.
Proof.
  induction p as [|c p IH]; [reflexivity|].
  rewrite append_cons. cbn [PyStr.startswith]. by rewrite Ascii.eqb_refl.
Qed.

Lemma contains_here (sub s : string) :
  PyStr.startswith sub s = true -> PyStr.contains sub s = true.
Proof.
  destruct s as [|c s]; cbn [PyStr.contains]; [done|].
  intros ->. reflexivity.
Qed.

Lemma contains_app_r (sub p s : string) :
  PyStr.contains sub s = true -> PyStr.contains sub (p +:+ s) = true.
Proof.
  intros H. induction p as [|c p IH]; [done|].
  rewrite append_cons. cbn [PyStr.contains]. rewrite IH. apply orb_true_r.
Qed.

Lemma startswith_app_l (sub s q : string) :
  PyStr.startswith sub s = true -> PyStr.startswith sub (s +:+ q) = true.
Proof.
  revert s. induction sub as [|a sub IH]; intros [|b s]; cbn [PyStr.startswith];
    try done.
  rewrite append_cons. cbn [PyStr.startswith].
  destruct (Ascii.eqb a b); [apply IH | done].
Qed.

Lemma contains_app_l (sub s q : string) :
  PyStr.contains sub s = true -> PyStr.contains sub (s +:+ q) = true.
Proof.
  induction s as [|c s IH].
  - cbn [PyStr.contains]. intros H. apply contains_here.
    by apply (startswith_app_l sub "" q).
  - rewrite append_cons. cbn [PyStr.contains]. intros [H|H]%orb_true_iff.
    + pose proof (startswith_app_l sub (String c s) q H) as H'.
      rewrite append_cons in H'. by rewrite H'.
    + rewrite (IH H). apply orb_true_r.
Qed.

(** A literal occurrence is found by [in]. *)
Lemma contains_intro (sub pre post : string) :
  PyStr.contains sub (pre +:+ sub +:+ post) = true.
Proof. apply contains_app_r, contains_here, startswith_app. Qed.

(** Without an occurrence of the separator, [split] returns the string whole. *)
Lemma split_scan_no_sep (sep s cur : string) :
  PyStr.contains sep s = false -> PyStr.split_scan sep 0 cur s = [cur +:+ s].
Proof.
  revert cur. induction s as [|c s IH]; intros cur H.
  - by rewrite append_nil_r.
  - cbn [PyStr.contains] in H. apply orb_false_iff in H as [H1 H2].
    cbn [PyStr.split_scan]. rewrite H1, (IH _ H2), append_assoc. reflexivity.
Qed.

Lemma split_scan_nonempty (sep : string) (k : nat) (cur s : string) :
  exists x tl, PyStr.split_scan sep k cur s = x :: tl.
Proof.
  revert k cur. induction s as [|c s IH]; intros k cur; [by eexists _, _|].
  cbn [PyStr.split_scan]. destruct k as [|k]; [|apply IH].
  destruct (PyStr.startswith sep (String c s)); [by eexists _, _ | apply IH].
Qed.

(** With an occurrence of a non-empty separator, [split] returns at least
    two segments. *)
Lemma split_scan_two (sep s cur : string) :
  sep <> "" -> PyStr.contains sep s = true ->
  exists x y tl, PyStr.split_scan sep 0 cur s = x :: y :: tl.
Proof.
  intros Hsep. revert cur. induction s as [|c s IH]; intros cur H.
  - destruct sep; [done | discriminate H].
  - cbn [PyStr.contains] in H. cbn [PyStr.split_scan].
    destruct (PyStr.startswith sep (String c s)).
    + destruct (split_scan_nonempty sep (String.length sep - 1) "" s)
        as (y & tl & ->).
      by eexists _, _, _.
    + apply IH, H.
Qed.

(** Finds a literal in a string built by appending it to unknown parts. *)
Ltac find_literal :=
  first [ reflexivity | apply contains_app_r; find_literal ].

(** ** Running the log writer and the extractor *)

Lemma save_to_csv_run (data : CsvData) (filename : string) (s : State) :
  exists s',
    save_to_csv data filename s = (inr tt, s')
    /\ stdout s' = stdout s
    /\ fetched s' = fetched s
    /\ files s' !! filename =
         Some (log_before s filename ++
               record_bytes
                 [title data; csv_cell (rating data); csv_cell (price data);
                  csv_cell (image data); csv_cell (description data); url data])
    /\ (forall other, other <> filename -> files s' !! other = files s !! other).
Proof.
  unfold save_to_csv, bind, os_path_isfile, open_append, writerow, file_write, ret,
    log_before.
  destruct (files s !! filename) as [rows|] eqn:Hf.
  - rewrite bool_decide_eq_true_2 by eauto. cbv beta iota zeta. cbn [negb].
    eexists. split; [reflexivity|]. cbn [files stdout fetched].
    repeat split.
    + by rewrite lookup_alter_eq, Hf.
    + intros other Hne. by rewrite lookup_alter_ne.
  - rewrite bool_decide_eq_false_2 by (intros [? ?]; congruence).
    cbv beta iota zeta. cbn [negb].
    eexists. split; [reflexivity|]. cbn [files stdout fetched].
    repeat split.
    + by rewrite !lookup_alter_eq, lookup_insert_eq.
    + intros other Hne. by rewrite !lookup_alter_ne, lookup_insert_ne.
Qed.

Lemma scrape_ok (env : Env) (url : string) (s : State) (body : string)
    (soup : Soup) (b : string) :
  http_get env url custom_headers = inr body ->
  html_parse env body "lxml" = inr soup ->
  brand_name_of url = inr b ->
  exists s',
    scrape_amazon_product env url s = (inr (record_of soup b), s')
    /\ stdout s' = stdout s
    /\ fetched s' = fetched s ++ [url]
    /\ files s' !! default_filename =
         Some (log_before s default_filename ++ record_bytes (csv_row_of soup url))
    /\ (forall other, other <> default_filename ->
          files s' !! other = files s !! other).
Proof.
  intros Hget Hparse Hbrand.
  unfold scrape_amazon_product, try_except, bind, requests_get, BeautifulSoup, lift.
  rewrite Hget. cbv beta iota zeta. rewrite Hparse. cbv beta iota zeta.
  rewrite Hbrand. cbv beta iota zeta.
  match goal with
  | |- context [save_to_csv ?d ?f ?st] =>
      destruct (save_to_csv_run d f st) as (s' & -> & Hout & Hfet & Hrow & Hoth)
  end.
  exists s'. split; [reflexivity|]. cbn [files stdout fetched] in *.
  repeat split; assumption.
Qed.

Lemma scrape_raises (env : Env) (url : string) (s : State) (cause : exn) :
  scrape_failure env url cause ->
  scrape_amazon_product env url s =
    (inl scrape_error,
     mkState (files s)
             (stdout s ++ ["Error scraping product data: " +:+ str_exn env cause])
             (fetched s ++ [url])).
Proof.
  unfold scrape_amazon_product, try_except, bind, requests_get, BeautifulSoup,
    lift, print, raise.
  intros [H | [(body & H1 & H2) | (body & soup & H1 & H2 & H3)]].
  - by rewrite H.
  - rewrite H1. cbv beta iota zeta. by rewrite H2.
  - rewrite H1. cbv beta iota zeta. rewrite H2. cbv beta iota zeta.
    by rewrite H3.
Qed.

(** The extractor either builds the record of the parsed page, or raises
    for one of the three causes. *)
Lemma scrape_cases (env : Env) (url : string) :
  (exists body soup b,
      http_get env url custom_headers = inr body
      /\ html_parse env body "lxml" = inr soup
      /\ brand_name_of url = inr b)
  \/ (exists cause, scrape_failure env url cause).
Proof.
  unfold scrape_failure.
  destruct (http_get env url custom_headers) as [e|body] eqn:Hget;
    [right; eauto|].
  destruct (html_parse env body "lxml") as [e|soup] eqn:Hparse;
    [right; eauto 6|].
  destruct (brand_name_of url) as [e|b] eqn:Hbrand; [right; eauto 10|].
  left. eauto 10.
Qed.

Lemma brand_name_of_no_slashes (url : string) :
  PyStr.contains "//" url = false ->
  brand_name_of url = inl (PyError "list index out of range").
Proof.
  intros H. unfold brand_name_of, PyStr.split.
  by rewrite (split_scan_no_sep _ _ _ H).
Qed.

Lemma brand_name_of_slashes (url : string) :
  PyStr.contains "//" url = true -> exists b, brand_name_of url = inr b.
Proof.
  intros H. unfold brand_name_of, PyStr.split.
  destruct (split_scan_two "//" url "" ltac:(discriminate) H) as (x & y & tl & ->).
  cbn [getitem lookup list_lookup].
  destruct (split_scan_nonempty "/" 0 "" y) as (host & tl' & ->).
  eauto.
Qed.

(** ** Splitting a URL *)

Lemma split_scan_skip (sep p rest cur : string) :
  PyStr.split_scan sep (String.length p) cur (p +:+ rest)
  = PyStr.split_scan sep 0 cur rest.
Proof.
  induction p as [|c p IH]; [by destruct rest|].
  rewrite append_cons. cbn [String.length PyStr.split_scan]. exact IH.
Qed.

(** A separator met after a stretch free of its first character ends the
    current segment there. *)
Lemma split_scan_at (c : ascii) (sep' a rest cur : string) :
  PyStr.contains (String c "") a = false ->
  PyStr.split_scan (String c sep') 0 cur (a +:+ String c sep' +:+ rest)
  = (cur +:+ a) :: PyStr.split_scan (String c sep') 0 "" rest.
Proof.
  revert cur. induction a as [|b a IH]; intros cur H.
  - rewrite append_nil_l, append_nil_r, append_cons. cbn [PyStr.split_scan].
    rewrite <- append_cons, startswith_app.
    change (String.length (String c sep') - 1) with (String.length sep' - 0).
    by rewrite Nat.sub_0_r, split_scan_skip.
  - pose proof H as H'. cbn [PyStr.contains PyStr.startswith] in H'.
    apply orb_false_iff in H' as [Hb Ha].
    rewrite append_cons. cbn [PyStr.split_scan PyStr.startswith].
    destruct (Ascii.eqb c b); [discriminate Hb|].
    rewrite (IH _ Ha), append_assoc. reflexivity.
Qed.

Lemma split_scan_head (sep s cur : string) :
  exists x tl, PyStr.split_scan sep 0 cur s = (cur +:+ x) :: tl.
Proof.
  revert cur. induction s as [|c s IH]; intros cur.
  - exists "", []. by rewrite append_nil_r.
  - cbn [PyStr.split_scan]. destruct (PyStr.startswith sep (String c s)).
    + exists "". eexists. by rewrite append_nil_r.
    + destruct (IH (cur +:+ String c "")) as (x & tl & ->).
      exists (String c x), tl. by rewrite append_assoc.
Qed.

(** The segment of a [//]-split that starts with a slash-free host followed
    by a slash is the host, alone or followed by a slash. *)
Lemma split_dslash_host (host path cur : string) :
  PyStr.contains "/" host = false ->
  exists x tl,
    PyStr.split_scan "//" 0 cur (host +:+ "/" +:+ path) = (cur +:+ host +:+ x) :: tl
    /\ (x = "" \/ exists y, x = "/" +:+ y).
Proof.
  revert cur. induction host as [|b host IH]; intros cur H.
  - rewrite append_nil_l. change ("/" +:+ path) with (String "/" path).
    cbn [PyStr.split_scan].
    destruct (PyStr.startswith "//" (String "/" path)).
    + exists "". eexists. split; [|by left].
      rewrite append_nil_l, append_nil_r. reflexivity.
    + destruct (split_scan_head "//" path (cur +:+ "/")) as (x & tl & ->).
      exists ("/" +:+ x), tl. split; [by rewrite append_assoc | right; eauto].
  - pose proof H as H'. cbn [PyStr.contains PyStr.startswith] in H'.
    apply orb_false_iff in H' as [Hb Ha].
    rewrite append_cons. cbn [PyStr.split_scan PyStr.startswith].
    destruct (Ascii.eqb "/" b); [discriminate Hb|].
    destruct (IH (cur +:+ String b "") Ha) as (x & tl & -> & Hx).
    exists x, tl. split; [by rewrite append_assoc | exact Hx].
Qed.

(** The brand of a URL made of a slash-free scheme, [//], a slash-free host,
    a slash and a path is computed from the host alone. *)
Lemma brand_name_of_host (scheme host path : string) :
  PyStr.contains "/" scheme = false ->
  PyStr.contains "/" host = false ->
  brand_name_of (scheme +:+ "//" +:+ host +:+ "/" +:+ path)
  = inr (PyStr.replace "www.amazon" "Amazon" host).
Proof.
  intros Hs Hh. unfold brand_name_of, PyStr.split.
  rewrite (split_scan_at "/" "/" scheme _ "" Hs).
  destruct (split_dslash_host host path "" Hh) as (x & tl & -> & Hx).
  cbn [getitem lookup list_lookup]. rewrite append_nil_l.
  destruct Hx as [-> | (y & ->)].
  - rewrite append_nil_r, (split_scan_no_sep _ _ _ Hh). reflexivity.
  - rewrite (split_scan_at "/" "" host y "" Hh). reflexivity.
Qed.

(** ** Stripping the rating suffix *)

Lemma numeric_char_not_o (c : ascii) :
  numeric_char c = true -> Ascii.eqb "o" c = false.
Proof. destruct c as [[] [] [] [] [] [] [] []]; (discriminate || reflexivity). Qed.

Lemma numeric_char_not_space (c : ascii) :
  numeric_char c = true -> PyStr.isspace c = false.
Proof. destruct c as [[] [] [] [] [] [] [] []]; (discriminate || reflexivity). Qed.

Lemma replace_suffix_numeric (num : string) :
  all_chars numeric_char num = true ->
  PyStr.replace "out of 5 stars" "" (num +:+ " out of 5 stars") = num +:+ " ".
Proof.
  unfold PyStr.replace. induction num as [|c num IH]; intros H; [reflexivity|].
  cbn [all_chars] in H. apply andb_true_iff in H as [Hc Hnum].
  rewrite !append_cons. cbn [PyStr.replace_scan PyStr.startswith].
  rewrite (numeric_char_not_o c Hc), (IH Hnum). reflexivity.
Qed.

Lemma rstrip_numeric (num : string) :
  all_chars numeric_char num = true -> PyStr.rstrip (num +:+ " ") = num.
Proof.
  induction num as [|c num IH]; intros H; [reflexivity|].
  cbn [all_chars] in H. apply andb_true_iff in H as [Hc Hnum].
  rewrite append_cons. cbn [PyStr.rstrip]. rewrite (IH Hnum).
  destruct num; [by rewrite (numeric_char_not_space c Hc) | reflexivity].
Qed.

Lemma strip_numeric (num : string) :
  all_chars numeric_char num = true -> PyStr.strip (num +:+ " ") = num.
Proof.
  intros H. unfold PyStr.strip. destruct num as [|c num]; [reflexivity|].
  pose proof H as H'. cbn [all_chars] in H'. apply andb_true_iff in H' as [Hc _].
  rewrite append_cons. cbn [PyStr.lstrip]. rewrite (numeric_char_not_space c Hc).
  rewrite <- append_cons. by apply rstrip_numeric.
Qed.

(** * The extractor *)

(** C1. For a page on which none of the five selectors finds an element,
    fetched from a URL that has a [//], the extractor returns (it does not
    raise) a record with the two placeholders as name and description and
    with rating, price and image [None]. *)
Theorem extraction_without_anchors (env : Env) (url : string) (s : State)
    (body : string) (soup : Soup) :
  http_get env url custom_headers = inr body ->
  html_parse env body "lxml" = inr soup ->
  select_one soup "#productTitle" = None ->
  select_one soup "#acrPopover" = None ->
  select_one soup "span.a-price span.a-offscreen" = None ->
  select_one soup "#landingImage" = None ->
  select_one soup "#feature-bullets" = None ->
  PyStr.contains "//" url = true ->
  exists r s',
    scrape_amazon_product env url s = (inr r, s')
    /\ productName r = "No title available"
    /\ productDescription r = "No description available"
    /\ productRating r = None
    /\ productPrice r = None
    /\ productImage r = None.
Proof.
  intros Hget Hparse Ht Hr Hp Hi Hd Hurl.
  destruct (brand_name_of_slashes url Hurl) as (b & Hb).
  destruct (scrape_ok env url s body soup b Hget Hparse Hb) as (s' & Hrun & _).
  exists (record_of soup b), s'. split; [exact Hrun|].
  unfold record_of, scrape_title, scrape_description, scrape_rating,
    scrape_rating_text, scrape_price, scrape_image.
  cbn [productName productDescription productRating productPrice productImage].
  rewrite Ht, Hr, Hp, Hi, Hd. repeat split; reflexivity.
Qed.

Lemma extraction_without_anchors_witness :
  exists r s',
    scrape_amazon_product (page_env empty_soup) "https://www.amazon.com/dp/X"
      fresh_state = (inr r, s')
    /\ productName r = "No title available"
    /\ productDescription r = "No description available"
    /\ productRating r = None
    /\ productPrice r = None
    /\ productImage r = None.
Proof.
  apply (extraction_without_anchors (page_env empty_soup)
           "https://www.amazon.com/dp/X" fresh_state "<html></html>" empty_soup);
    reflexivity.
Defined.

(** C6. The brand name is computed from the URL alone: from the first
    [/]-segment of what follows the first [//], with [www.amazon] replaced
    by [Amazon]; a record returned for a URL carries that brand, whatever the
    page; and [https://www.amazon.com/dp/X] gives [Amazon.com]. *)
Theorem brand_name_from_url :
  brand_name_of "https://www.amazon.com/dp/X" = inr "Amazon.com"
  /\ (forall env url s r s',
        scrape_amazon_product env url s = (inr r, s') ->
        brand_name_of url = inr (brandName r))
  /\ (forall scheme host path,
        PyStr.contains "/" scheme = false ->
        PyStr.contains "/" host = false ->
        brand_name_of (scheme +:+ "//" +:+ host +:+ "/" +:+ path)
        = inr (PyStr.replace "www.amazon" "Amazon" host))
  /\ (forall rest,
        PyStr.replace "www.amazon" "Amazon" ("www.amazon" +:+ rest)
        = "Amazon" +:+ PyStr.replace "www.amazon" "Amazon" rest).
Proof.
  split; [reflexivity|]. split; [|split].
  - intros env url s r s' Hrun.
    destruct (scrape_cases env url) as [(body & soup & b & Hg & Hp & Hb) | (c & Hc)].
    + destruct (scrape_ok env url s body soup b Hg Hp Hb) as (s1 & Hrun1 & _).
      rewrite Hrun1 in Hrun. injection Hrun as <- _. exact Hb.
    + rewrite (scrape_raises env url s c Hc) in Hrun. discriminate Hrun.
  - exact brand_name_of_host.
  - intros rest. reflexivity.
Qed.

Lemma brand_name_from_url_witness :
  brand_name_of ("https:" +:+ "//" +:+ "www.amazon.in" +:+ "/" +:+ "dp/X")
  = inr (PyStr.replace "www.amazon" "Amazon" "www.amazon.in").
Proof.
  apply (proj1 (proj2 (proj2 brand_name_from_url))); reflexivity.
Defined.

(** C9. For a URL without [//] the extractor raises the generic server
    error, whatever the network and the parser answer: the brand-name step
    indexes the second segment of a split that has only one.  When the fetch
    and the parse succeed, that index error is the cause printed. *)
Theorem url_without_slashes_fails (env : Env) (url : string) (s : State) :
  PyStr.contains "//" url = false ->
  brand_name_of url = inl (PyError "list index out of range")
  /\ exists cause,
       scrape_amazon_product env url s =
         (inl (HTTPException 500 "Failed to scrape the product data"),
          mkState (files s)
            (stdout s ++ ["Error scraping product data: " +:+ str_exn env cause])
            (fetched s ++ [url]))
       /\ (forall body soup,
             http_get env url custom_headers = inr body ->
             html_parse env body "lxml" = inr soup ->
             cause = PyError "list index out of range").
Proof.
  intros Hurl. pose proof (brand_name_of_no_slashes url Hurl) as Hb.
  split; [exact Hb|].
  destruct (scrape_cases env url) as [(body & soup & b & _ & _ & Hb') | (c & Hc)];
    [congruence|].
  exists c. split; [exact (scrape_raises env url s c Hc)|].
  intros body soup Hg Hp.
  destruct Hc as [Hc | [(body' & Hg' & Hp') | (body' & soup' & _ & _ & Hb')]];
    congruence.
Qed.

Lemma url_without_slashes_fails_witness :
  brand_name_of "www.amazon.com/dp/X" = inl (PyError "list index out of range")
  /\ exists cause,
       scrape_amazon_product (page_env empty_soup) "www.amazon.com/dp/X" fresh_state =
         (inl (HTTPException 500 "Failed to scrape the product data"),
          mkState (files fresh_state)
            (stdout fresh_state ++
               ["Error scraping product data: "
                  +:+ str_exn (page_env empty_soup) cause])
            (fetched fresh_state ++ ["www.amazon.com/dp/X"]))
       /\ (forall body soup,
             http_get (page_env empty_soup) "www.amazon.com/dp/X" custom_headers
               = inr body ->
             html_parse (page_env empty_soup) body "lxml" = inr soup ->
             cause = PyError "list index out of range").
Proof.
  apply (url_without_slashes_fails (page_env empty_soup) "www.amazon.com/dp/X"
           fresh_state).
  reflexivity.
Defined.

(** * The ad composer *)

Lemma get_target_description_total (g a : string) :
  exists target, get_target_description g a = inr target.
Proof.
  unfold get_target_description. case_bool_decide; [|eauto].
  eexists. vm_compute. reflexivity.
Qed.

Lemma random_choice_templates (draw : nat) (pd : ProductRecord) :
  exists base,
    random_choice draw (ad_templates pd) = inr base
    /\ ad_templates pd !! (draw mod 5) = Some base.
Proof.
  unfold random_choice. change (length (ad_templates pd)) with 5.
  pose proof (Nat.mod_upper_bound draw 5 ltac:(lia)) as Hlt.
  destruct (ad_templates pd !! (draw mod 5)) as [base|] eqn:Hl; [eauto|].
  apply lookup_ge_None in Hl. change (length (ad_templates pd)) with 5 in Hl. lia.
Qed.

(** The composer returns the drawn template, followed by a newline and the
    targeting sentence when that sentence is not empty. *)
Lemma generate_simple_ad_run (draw : nat) (pd : ProductRecord) (g a : string) :
  exists base target,
    ad_templates pd !! (draw mod 5) = Some base
    /\ get_target_description g a = inr target
    /\ generate_simple_ad draw pd g a =
         inr (if PyStr.truthy target then base +:+ newline +:+ target else base).
Proof.
  destruct (get_target_description_total g a) as (target & Ht).
  destruct (random_choice_templates draw pd) as (base & Hc & Hb).
  exists base, target. unfold generate_simple_ad. rewrite Ht, Hc.
  repeat split; [exact Hb|]. by destruct (PyStr.truthy target).
Qed.

Lemma templates_contain_name (pd : ProductRecord) (base : string) (i : nat) :
  ad_templates pd !! i = Some base ->
  PyStr.contains (productName pd) base = true.
Proof.
  unfold ad_templates. intros H.
  destruct i as [|[|[|[|[|i]]]]]; cbn [lookup list_lookup] in H;
    try discriminate H; injection H as <-; apply contains_intro.
Qed.

(** C3, counterexample. A rating that is present but empty (the extractor
    returns one for the title text [out of 5 stars]) gets no rating clause. *)
Lemma rating_clause_present_counterexample :
  rating_of_text (Some "out of 5 stars") = Some ""
  /\ productRating (sample_record (Some "") None) = Some ""
  /\ rating_clause (sample_record (Some "") None) = ""
  /\ rating_clause (sample_record (Some "") None) <> " Rated " +:+ "" +:+ " stars!"
  /\ generate_simple_ad 1 (sample_record (Some "") None) "male" "0-9"
     = inr "Introducing the amazing Kettle - perfect for you! ".
Proof. repeat split; (reflexivity || discriminate). Qed.

(** C3, as amended. For every record, demographic pair and draw the
    composer returns a string: one of the five templates filled with the
    product name, the rating clause and the price, followed by the targeting
    line if there is one.  Every template, and so the ad, contains the
    product name.  The rating clause is [ Rated r stars!] for a rating [r]
    that is present and not empty, and empty for an absent or empty rating. *)
Theorem composer_total_five_templates (draw : nat) (pd : ProductRecord)
    (g a : string) :
  let name := productName pd in
  let price := PyStr.str_of (productPrice pd) in
  let clause := rating_clause pd in
  exists base target,
    get_target_description g a = inr target
    /\ generate_simple_ad draw pd g a =
         inr (if PyStr.truthy target then base +:+ newline +:+ target else base)
    /\ (base = "Discover " +:+ name +:+ "! " +:+ clause +:+ " Available now at "
                 +:+ price +:+ "."
        \/ base = "Introducing the amazing " +:+ name +:+ " - perfect for you! "
                    +:+ clause
        \/ base = "Don't miss out on " +:+ name +:+ "! Get yours at " +:+ price
                    +:+ "."
        \/ base = "Experience the excellence of " +:+ name +:+ "! " +:+ clause
        \/ base = "Transform your life with " +:+ name +:+ "! Now only " +:+ price
                    +:+ "!")
    /\ PyStr.contains name base = true
    /\ (forall r, productRating pd = Some r -> r <> "" ->
          clause = " Rated " +:+ r +:+ " stars!")
    /\ (productRating pd = None \/ productRating pd = Some "" -> clause = "").
Proof.
  intros name price clause.
  destruct (generate_simple_ad_run draw pd g a) as (base & target & Hb & Ht & Hrun).
  exists base, target. split; [exact Ht|]. split; [exact Hrun|].
  split; [|split; [exact (templates_contain_name pd base _ Hb)|]].
  - pose proof (Nat.mod_upper_bound draw 5 ltac:(lia)) as Hlt.
    unfold ad_templates in Hb. fold name price clause in Hb.
    destruct (draw mod 5) as [|[|[|[|[|i]]]]]; cbn [lookup list_lookup] in Hb;
      [injection Hb as <-; tauto .. | lia].
  - subst clause. unfold rating_clause. split.
    + intros r -> Hr. by destruct r.
    + by intros [-> | ->].
Qed.

Lemma composer_total_five_templates_witness :
  rating_clause (sample_record (Some "4.5") (Some "$20"))
  = " Rated " +:+ "4.5" +:+ " stars!".
Proof.
  destruct (composer_total_five_templates 0
              (sample_record (Some "4.5") (Some "$20")) "male" "18-25")
    as (base & target & _ & _ & _ & _ & Hsome & _).
  apply Hsome; [reflexivity | discriminate].
Defined.

(** C10. With an absent price, each of the three templates that print the
    price prints the text [None] in its place, so the ad contains
    [Available now at None.], [Get yours at None.] or [Now only None!]. *)
Theorem absent_price_printed_as_None (draw : nat) (pd : ProductRecord)
    (g a : string) :
  productPrice pd = None ->
  draw mod 5 = 0 \/ draw mod 5 = 2 \/ draw mod 5 = 4 ->
  exists ad,
    generate_simple_ad draw pd g a = inr ad
    /\ PyStr.contains "None" ad = true
    /\ (draw mod 5 = 0 -> PyStr.contains "Available now at None." ad = true)
    /\ (draw mod 5 = 2 -> PyStr.contains "Get yours at None." ad = true)
    /\ (draw mod 5 = 4 -> PyStr.contains "Now only None!" ad = true).
Proof.
  intros Hprice Hdraw.
  destruct (generate_simple_ad_run draw pd g a) as (base & target & Hb & _ & Hrun).
  eexists. split; [exact Hrun|].
  assert (forall sub, PyStr.contains sub base = true ->
            PyStr.contains sub
              (if PyStr.truthy target then base +:+ newline +:+ target else base)
            = true) as Hlift.
  { intros sub H. destruct (PyStr.truthy target); [by apply contains_app_l | done]. }
  unfold ad_templates in Hb. rewrite Hprice in Hb. cbn [PyStr.str_of] in Hb.
  destruct Hdraw as [H | [H | H]]; rewrite H in Hb |- *;
    cbn [lookup list_lookup] in Hb; injection Hb as <-;
    (split; [|repeat split; intros; try discriminate]);
    apply Hlift; find_literal.
Qed.

Lemma absent_price_printed_as_None_witness :
  exists ad,
    generate_simple_ad 0 (sample_record None None) "male" "18-25" = inr ad
    /\ PyStr.contains "None" ad = true
    /\ (0 mod 5 = 0 -> PyStr.contains "Available now at None." ad = true)
    /\ (0 mod 5 = 2 -> PyStr.contains "Get yours at None." ad = true)
    /\ (0 mod 5 = 4 -> PyStr.contains "Now only None!" ad = true).
Proof.
  apply (absent_price_printed_as_None 0 (sample_record None None) "male" "18-25");
    [reflexivity | left; reflexivity].
Defined.

(** * The endpoint *)

(** The endpoint on a non-empty URL, by the outcome of the extractor. *)
Lemma create_ad_run (env : Env) (request : AdRequest) (s : State) :
  req_url request <> "" ->
  match scrape_amazon_product env (req_url request)
          (mkState (files s) (stdout s ++ ["Received URL: " +:+ req_url request])
                   (fetched s)) with
  | (inr pd, s1) =>
      exists ad,
        generate_simple_ad (random_draw env) pd (gender request) (ageGroup request)
          = inr ad
        /\ create_ad env request s =
             (inr (mkAdResponse pd ad),
              mkState (files s1)
                (stdout s1 ++ ["Scraped Product Data: " +:+ repr_product env pd])
                (fetched s1))
  | (inl e, s1) =>
      create_ad env request s =
        (inl (HTTPException 500 ("Error generating ad: " +:+ str_exn env e)),
         mkState (files s1)
           (stdout s1 ++ ["Error generating ad: " +:+ str_exn env e])
           (fetched s1))
  end.
Proof.
  intros Hurl. unfold create_ad.
  destruct (req_url request) as [|c u] eqn:Hu; [done|]. cbn [PyStr.truthy negb].
  unfold try_except, bind, print, lift, raise, ret. cbv beta iota zeta.
  destruct (scrape_amazon_product env (String c u) _) as [[e|pd] s1]; [reflexivity|].
  destruct (generate_simple_ad_run (random_draw env) pd (gender request)
              (ageGroup request)) as (base & target & _ & _ & Hrun).
  eexists. split; [exact Hrun|]. cbn [files stdout fetched]. by rewrite Hrun.
Qed.

(** Every failure of the endpoint on a non-empty URL is the wrapped generic
    failure of the extractor. *)
Lemma create_ad_raises (env : Env) (request : AdRequest) (s : State) (cause : exn) :
  req_url request <> "" ->
  scrape_failure env (req_url request) cause ->
  create_ad env request s =
    (inl (HTTPException 500
            ("Error generating ad: "
               +:+ str_HTTPException env 500 "Failed to scrape the product data")),
     mkState (files s)
       (stdout s ++
          ["Received URL: " +:+ req_url request;
           "Error scraping product data: " +:+ str_exn env cause;
           "Error generating ad: "
             +:+ str_HTTPException env 500 "Failed to scrape the product data"])
       (fetched s ++ [req_url request])).
Proof.
  intros Hurl Hcause. pose proof (create_ad_run env request s Hurl) as Hrun.
  rewrite (scrape_raises env _ _ cause Hcause) in Hrun.
  cbn [files stdout fetched str_exn scrape_error] in Hrun.
  rewrite Hrun. by rewrite <- !app_assoc.
Qed.

Lemma create_ad_failure (env : Env) (request : AdRequest) (s : State)
    (e : exn) (s' : State) :
  req_url request <> "" ->
  create_ad env request s = (inl e, s') ->
  exists cause,
    scrape_failure env (req_url request) cause
    /\ e = HTTPException 500
             ("Error generating ad: "
                +:+ str_HTTPException env 500 "Failed to scrape the product data").
Proof.
  intros Hurl Hfail.
  destruct (scrape_cases env (req_url request))
    as [(body & soup & b & Hg & Hp & Hb) | (cause & Hcause)].
  - pose proof (create_ad_run env request s Hurl) as Hrun.
    destruct (scrape_ok env (req_url request)
                (mkState (files s)
                   (stdout s ++ ["Received URL: " +:+ req_url request]) (fetched s))
                body soup b Hg Hp Hb) as (s1 & Hs1 & _).
    rewrite Hs1 in Hrun. destruct Hrun as (ad & _ & Hrun). congruence.
  - exists cause. split; [exact Hcause|].
    rewrite (create_ad_raises env request s cause Hurl Hcause) in Hfail.
    by injection Hfail as <- _.
Qed.

(** C5. On a non-empty URL, every failure of the fetch, the parse or the
    brand-name step makes the endpoint raise status 500 with one fixed
    message, in which the text of the cause does not occur; the cause is
    printed to standard output.  Ad composition does not fail, and the
    endpoint raises nothing else. *)
Theorem server_error_is_generic (env : Env) (request : AdRequest) (s : State) :
  req_url request <> "" ->
  let detail :=
    "Error generating ad: "
      +:+ str_HTTPException env 500 "Failed to scrape the product data" in
  (forall cause,
      scrape_failure env (req_url request) cause ->
      create_ad env request s =
        (inl (HTTPException 500 detail),
         mkState (files s)
           (stdout s ++
              ["Received URL: " +:+ req_url request;
               "Error scraping product data: " +:+ str_exn env cause;
               detail])
           (fetched s ++ [req_url request])))
  /\ (forall pd, exists ad,
        generate_simple_ad (random_draw env) pd (gender request) (ageGroup request)
        = inr ad)
  /\ (forall e s',
        create_ad env request s = (inl e, s') ->
        e = HTTPException 500 detail
        /\ exists cause, scrape_failure env (req_url request) cause).
Proof.
  intros Hurl detail. split; [|split].
  - intros cause Hcause. exact (create_ad_raises env request s cause Hurl Hcause).
  - intros pd.
    destruct (generate_simple_ad_run (random_draw env) pd (gender request)
                (ageGroup request)) as (base & target & _ & _ & Hrun).
    eauto.
  - intros e s' Hfail.
    destruct (create_ad_failure env request s e s' Hurl Hfail) as (cause & Hc & ->).
    eauto.
Qed.

Lemma server_error_is_generic_witness :
  create_ad offline_env (mkAdRequest "https://www.amazon.com/dp/X" "male" "18-25")
    fresh_state =
  (inl (HTTPException 500 "Error generating ad: Failed to scrape the product data"),
   mkState ∅
     ["Received URL: https://www.amazon.com/dp/X";
      "Error scraping product data: connection refused";
      "Error generating ad: Failed to scrape the product data"]
     ["https://www.amazon.com/dp/X"]).
Proof.
  apply (proj1 (server_error_is_generic offline_env
                  (mkAdRequest "https://www.amazon.com/dp/X" "male" "18-25")
                  fresh_state ltac:(discriminate))
           (PyError "connection refused")).
  left. reflexivity.
Defined.

(** C7. A request with an empty URL is rejected with status 400 and the
    process state is left as it was: nothing is fetched, nothing is written
    to the log, nothing is printed.  Every error raised for a non-empty URL
    has status 500. *)
Theorem empty_url_rejected (env : Env) (g a : string) (s : State) :
  create_ad env (mkAdRequest "" g a) s
  = (inl (HTTPException 400 "No URL provided"), s)
  /\ (forall request status detail s',
        req_url request <> "" ->
        create_ad env request s = (inl (HTTPException status detail), s') ->
        status = 500 /\ status <> 400).
Proof.
  split; [reflexivity|].
  intros request status detail s' Hurl Hfail.
  destruct (create_ad_failure env request s _ s' Hurl Hfail) as (cause & _ & Heq).
  injection Heq as -> _. split; [reflexivity | discriminate].
Qed.

Lemma empty_url_rejected_witness :
  create_ad offline_env (mkAdRequest "" "male" "18-25") fresh_state
  = (inl (HTTPException 400 "No URL provided"), fresh_state)
  /\ 500 = 500 /\ 500 <> 400.
Proof.
  split.
  - apply (proj1 (empty_url_rejected offline_env "male" "18-25" fresh_state)).
  - apply (proj2 (empty_url_rejected offline_env "male" "18-25" fresh_state)
             (mkAdRequest "https://www.amazon.com/dp/X" "male" "18-25")
             500 "Error generating ad: Failed to scrape the product data"
             (mkState ∅
                ["Received URL: https://www.amazon.com/dp/X";
                 "Error scraping product data: connection refused";
                 "Error generating ad: Failed to scrape the product data"]
                ["https://www.amazon.com/dp/X"]));
      [discriminate | reflexivity].
Defined.

(** * Further properties of the extractor *)

Lemma scrape_inr_inv (env : Env) (url : string) (s : State)
    (r : ProductRecord) (s' : State) :
  scrape_amazon_product env url s = (inr r, s') ->
  exists body soup b,
    http_get env url custom_headers = inr body
    /\ html_parse env body "lxml" = inr soup
    /\ brand_name_of url = inr b
    /\ r = record_of soup b.
Proof.
  intros Hrun.
  destruct (scrape_cases env url) as [(body & soup & b & Hg & Hp & Hb) | (c & Hc)].
  - destruct (scrape_ok env url s body soup b Hg Hp Hb) as (s1 & Hs1 & _).
    rewrite Hs1 in Hrun. injection Hrun as <- _. eauto 10.
  - rewrite (scrape_raises env url s c Hc) in Hrun. discriminate Hrun.
Qed.

Lemma scrape_inl_inv (env : Env) (url : string) (s : State) (e : exn) (s' : State) :
  scrape_amazon_product env url s = (inl e, s') ->
  exists cause,
    scrape_failure env url cause
    /\ e = scrape_error
    /\ s' = mkState (files s)
              (stdout s ++ ["Error scraping product data: " +:+ str_exn env cause])
              (fetched s ++ [url]).
Proof.
  intros Hrun.
  destruct (scrape_cases env url) as [(body & soup & b & Hg & Hp & Hb) | (c & Hc)].
  - destruct (scrape_ok env url s body soup b Hg Hp Hb) as (s1 & Hs1 & _).
    rewrite Hs1 in Hrun. discriminate Hrun.
  - rewrite (scrape_raises env url s c Hc) in Hrun.
    injection Hrun as <- <-. eauto.
Qed.

Lemma brand_name_of_inr_iff (url : string) :
  (exists b, brand_name_of url = inr b) <-> PyStr.contains "//" url = true.
Proof.
  split; [|apply brand_name_of_slashes].
  intros (b & Hb). destruct (PyStr.contains "//" url) eqn:Hc; [reflexivity|].
  rewrite (brand_name_of_no_slashes url Hc) in Hb. discriminate Hb.
Qed.

(** X4. The extractor returns a record exactly when the fetch and the parse
    succeed and the URL contains [//]. *)
Theorem extraction_succeeds_iff (env : Env) (url : string) (s : State) :
  (exists r s', scrape_amazon_product env url s = (inr r, s'))
  <-> (exists body soup,
         http_get env url custom_headers = inr body
         /\ html_parse env body "lxml" = inr soup)
      /\ PyStr.contains "//" url = true.
Proof.
  split.
  - intros (r & s' & Hrun).
    destruct (scrape_inr_inv env url s r s' Hrun) as (body & soup & b & Hg & Hp & Hb & _).
    split; [eauto|]. apply brand_name_of_inr_iff. eauto.
  - intros [(body & soup & Hg & Hp) Hurl].
    destruct (brand_name_of_slashes url Hurl) as (b & Hb).
    destruct (scrape_ok env url s body soup b Hg Hp Hb) as (s' & Hrun & _). eauto.
Qed.

Lemma extraction_succeeds_iff_witness :
  exists r s',
    scrape_amazon_product (page_env empty_soup) "https://www.amazon.com/dp/X"
      fresh_state = (inr r, s').
Proof.
  apply (proj2 (extraction_succeeds_iff (page_env empty_soup)
                  "https://www.amazon.com/dp/X" fresh_state)).
  split; [by exists "<html></html>", empty_soup | reflexivity].
Defined.

(** X5. The description of a returned record is never the empty string: a
    description anchor with blank text gives the placeholder, like a missing
    anchor.  The name has no such guard: it is empty exactly when the title
    anchor exists and its text is blank after stripping. *)
Theorem description_never_empty (env : Env) (url : string) (s : State)
    (body : string) (soup : Soup) (r : ProductRecord) (s' : State) :
  http_get env url custom_headers = inr body ->
  html_parse env body "lxml" = inr soup ->
  scrape_amazon_product env url s = (inr r, s') ->
  productDescription r <> ""
  /\ (forall description_element,
        select_one soup "#feature-bullets" = Some description_element ->
        PyStr.strip (text description_element) = "" ->
        productDescription r = "No description available")
  /\ (productName r = ""
      <-> exists title_element,
            select_one soup "#productTitle" = Some title_element
            /\ PyStr.strip (text title_element) = "").
Proof.
  intros Hg Hp Hrun.
  destruct (scrape_inr_inv env url s r s' Hrun)
    as (body' & soup' & b & Hg' & Hp' & _ & ->).
  assert (body' = body) as -> by congruence.
  assert (soup' = soup) as -> by congruence.
  unfold record_of. cbn [productDescription productName]. split; [|split].
  - unfold or_else. destruct (scrape_description soup) as [[|c d]|]; done.
  - intros d Hd Hblank. unfold scrape_description. by rewrite Hd, Hblank.
  - unfold scrape_title. destruct (select_one soup "#productTitle") as [t|].
    + split; [eauto|]. by intros (t' & [= <-] & H).
    + split; [discriminate|]. by intros (t' & H & _).
Qed.

Lemma description_never_empty_witness :
  productDescription (record_of bare_soup "Amazon.com") <> ""
  /\ (forall description_element,
        select_one bare_soup "#feature-bullets" = Some description_element ->
        PyStr.strip (text description_element) = "" ->
        productDescription (record_of bare_soup "Amazon.com")
        = "No description available")
  /\ (productName (record_of bare_soup "Amazon.com") = ""
      <-> exists title_element,
            select_one bare_soup "#productTitle" = Some title_element
            /\ PyStr.strip (text title_element) = "").
Proof.
  apply (description_never_empty (page_env bare_soup) "https://www.amazon.com/dp/X"
           fresh_state "<html></html>" bare_soup (record_of bare_soup "Amazon.com")
           (scrape_amazon_product (page_env bare_soup) "https://www.amazon.com/dp/X"
              fresh_state).2);
    reflexivity.
Defined.

(** X6. Which optional fields are present: the price when its anchor exists;
    the image when its anchor exists and has a [src] attribute, which is
    returned as it is; the rating when its anchor exists and has a non-empty
    [title] attribute. *)
Theorem optional_fields_present (env : Env) (url : string) (s : State)
    (body : string) (soup : Soup) (r : ProductRecord) (s' : State) :
  http_get env url custom_headers = inr body ->
  html_parse env body "lxml" = inr soup ->
  scrape_amazon_product env url s = (inr r, s') ->
  (is_Some (productPrice r)
   <-> is_Some (select_one soup "span.a-price span.a-offscreen"))
  /\ (forall src,
        productImage r = Some src
        <-> exists image_element,
              select_one soup "#landingImage" = Some image_element
              /\ attrs image_element !! "src" = Some src)
  /\ (is_Some (productRating r)
      <-> exists rating_element t,
            select_one soup "#acrPopover" = Some rating_element
            /\ attrs rating_element !! "title" = Some t
            /\ t <> "").
Proof.
  intros Hg Hp Hrun.
  destruct (scrape_inr_inv env url s r s' Hrun)
    as (body' & soup' & b & Hg' & Hp' & _ & ->).
  assert (body' = body) as -> by congruence.
  assert (soup' = soup) as -> by congruence.
  unfold record_of. cbn [productPrice productImage productRating].
  split; [|split].
  - unfold scrape_price.
    destruct (select_one soup "span.a-price span.a-offscreen"); split;
      intros [x Hx]; (discriminate || eauto).
  - intros src. unfold scrape_image.
    destruct (select_one soup "#landingImage") as [i|].
    + split; [eauto|]. by intros (i' & [= <-] & H).
    + split; [discriminate|]. by intros (i' & H & _).
  - unfold scrape_rating, scrape_rating_text.
    destruct (select_one soup "#acrPopover") as [e|]; cbn [rating_of_text].
    + destruct (attrs e !! "title") as [[|c t]|] eqn:Ha;
        cbn [default from_option id PyStr.truthy]; split.
      * by intros [x Hx].
      * intros (e' & t & [= <-] & Ht & Hne). congruence.
      * intros _. exists e, (String c t). by rewrite Ha.
      * eauto.
      * by intros [x Hx].
      * intros (e' & t & [= <-] & Ht & _). congruence.
    + split; [by intros [x Hx] | by intros (e' & t & H & _)].
Qed.

Lemma optional_fields_present_witness :
  (is_Some (productPrice (record_of bare_soup "Amazon.com"))
   <-> is_Some (select_one bare_soup "span.a-price span.a-offscreen"))
  /\ (forall src,
        productImage (record_of bare_soup "Amazon.com") = Some src
        <-> exists image_element,
              select_one bare_soup "#landingImage" = Some image_element
              /\ attrs image_element !! "src" = Some src)
  /\ (is_Some (productRating (record_of bare_soup "Amazon.com"))
      <-> exists rating_element t,
            select_one bare_soup "#acrPopover" = Some rating_element
            /\ attrs rating_element !! "title" = Some t
            /\ t <> "").
Proof.
  apply (optional_fields_present (page_env bare_soup)
           "https://www.amazon.com/dp/X" fresh_state "<html></html>" bare_soup
           (record_of bare_soup "Amazon.com")
           (scrape_amazon_product (page_env bare_soup)
              "https://www.amazon.com/dp/X" fresh_state).2);
    reflexivity.
Defined.

(** ** Stripped fields *)

Lemma lstrip_no_leading_space (s : string) :
  starts_with_space (PyStr.lstrip s) = false.
Proof.
  induction s as [|c s IH]; [reflexivity|]. cbn [PyStr.lstrip].
  destruct (PyStr.isspace c) eqn:Hc; [exact IH | exact Hc].
Qed.

Lemma rstrip_no_trailing_space (s : string) :
  ends_with_space (PyStr.rstrip s) = false.
Proof.
  induction s as [|c s IH]; [reflexivity|]. cbn [PyStr.rstrip].
  destruct (PyStr.rstrip s) as [|a r].
  - destruct (PyStr.isspace c) eqn:Hc; [reflexivity | exact Hc].
  - exact IH.
Qed.

Lemma rstrip_keeps_leading (s : string) :
  starts_with_space s = false -> starts_with_space (PyStr.rstrip s) = false.
Proof.
  destruct s as [|c s]; [done|]. cbn [starts_with_space PyStr.rstrip]. intros Hc.
  destruct (PyStr.rstrip s); [by rewrite Hc | exact Hc].
Qed.

Lemma strip_trimmed (s : string) : trimmed (PyStr.strip s) = true.
Proof.
  unfold trimmed, PyStr.strip.
  by rewrite (rstrip_keeps_leading _ (lstrip_no_leading_space s)),
    rstrip_no_trailing_space.
Qed.

(** X7. Name, description, price and rating of a returned record carry no
    whitespace at either end. *)
Theorem text_fields_trimmed (env : Env) (url : string) (s : State)
    (r : ProductRecord) (s' : State) :
  scrape_amazon_product env url s = (inr r, s') ->
  trimmed (productName r) = true
  /\ trimmed (productDescription r) = true
  /\ (forall p, productPrice r = Some p -> trimmed p = true)
  /\ (forall x, productRating r = Some x -> trimmed x = true).
Proof.
  intros Hrun.
  destruct (scrape_inr_inv env url s r s' Hrun) as (body & soup & b & _ & _ & _ & ->).
  unfold record_of.
  cbn [productName productDescription productPrice productRating].
  split; [|split; [|split]].
  - unfold scrape_title. destruct (select_one soup "#productTitle");
      [apply strip_trimmed | reflexivity].
  - unfold scrape_description, or_else.
    destruct (select_one soup "#feature-bullets") as [d|]; [|reflexivity].
    destruct (PyStr.truthy (PyStr.strip (text d))); [apply strip_trimmed | reflexivity].
  - unfold scrape_price. intros p.
    destruct (select_one soup "span.a-price span.a-offscreen"); [|discriminate].
    intros [= <-]. apply strip_trimmed.
  - unfold scrape_rating, rating_of_text. intros x.
    destruct (scrape_rating_text soup) as [t|]; [|discriminate].
    destruct (PyStr.truthy t); [|discriminate].
    intros [= <-]. apply strip_trimmed.
Qed.

Lemma text_fields_trimmed_witness :
  trimmed (productName (record_of rated_soup "Amazon.com")) = true
  /\ trimmed (productDescription (record_of rated_soup "Amazon.com")) = true
  /\ (forall p, productPrice (record_of rated_soup "Amazon.com") = Some p ->
                trimmed p = true)
  /\ (forall x, productRating (record_of rated_soup "Amazon.com") = Some x ->
                trimmed x = true).
Proof.
  apply (text_fields_trimmed (page_env rated_soup) "https://www.amazon.com/dp/X"
           fresh_state (record_of rated_soup "Amazon.com")
           (scrape_amazon_product (page_env rated_soup)
              "https://www.amazon.com/dp/X" fresh_state).2).
  reflexivity.
Defined.

(** ** Brand names of other hosts *)

Lemma replace_scan_absent (old new s : string) :
  PyStr.contains old s = false -> PyStr.replace_scan old new 0 s = s.
Proof.
  induction s as [|c s IH]; [reflexivity|].
  cbn [PyStr.contains PyStr.replace_scan]. intros [H1 H2]%orb_false_iff.
  by rewrite H1, (IH H2).
Qed.

Lemma startswith_shorter (c : ascii) (p s : string) :
  PyStr.startswith (String c p) s = true ->
  PyStr.startswith (String c EmptyString) s = true.
Proof.
  destruct s as [|b s]; cbn [PyStr.startswith]; [done|].
  by destruct (Ascii.eqb c b).
Qed.

Lemma contains_shorter (c : ascii) (p s : string) :
  PyStr.contains (String c EmptyString) s = false ->
  PyStr.contains (String c p) s = false.
Proof.
  induction s as [|b s IH]; [reflexivity|].
  cbn [PyStr.contains]. intros [H1 H2]%orb_false_iff.
  rewrite (IH H2), orb_false_r.
  destruct (PyStr.startswith (String c p) (String b s)) eqn:Hs; [|reflexivity].
  by rewrite (startswith_shorter c p _ Hs) in H1.
Qed.

(** X8. For a host without [www.amazon] the brand is the host itself, with or
    without a path after it. *)
Theorem brand_of_other_host (scheme host path : string) :
  PyStr.contains "/" scheme = false ->
  PyStr.contains "/" host = false ->
  PyStr.contains "www.amazon" host = false ->
  brand_name_of (scheme +:+ "//" +:+ host +:+ "/" +:+ path) = inr host
  /\ brand_name_of (scheme +:+ "//" +:+ host) = inr host.
Proof.
  intros Hs Hh Hw.
  assert (PyStr.replace "www.amazon" "Amazon" host = host) as Hrep
    by exact (replace_scan_absent _ _ _ Hw).
  split.
  - by rewrite (brand_name_of_host scheme host path Hs Hh), Hrep.
  - unfold brand_name_of, PyStr.split.
    rewrite (split_scan_at "/" "/" scheme host "" Hs).
    rewrite (split_scan_no_sep "//" host "" (contains_shorter "/" "/" host Hh)).
    cbn [getitem lookup list_lookup]. rewrite append_nil_l.
    rewrite (split_scan_no_sep "/" host "" Hh), append_nil_l.
    cbn [getitem lookup list_lookup]. by rewrite Hrep.
Qed.

Lemma brand_of_other_host_witness :
  brand_name_of ("https:" +:+ "//" +:+ "example.org" +:+ "/" +:+ "a//b")
  = inr "example.org"
  /\ brand_name_of ("https:" +:+ "//" +:+ "example.org") = inr "example.org".
Proof.
  apply (brand_of_other_host "https:" "example.org" "a//b"); reflexivity.
Defined.

(** * Further properties of the audience table and the composer *)

Lemma descriptions_female :
  descriptions !! "female" =
    Some {[ "9-18" := "The ad should appeal to young girls with a focus on fun, color, and trendy designs.";
            "18-25" := "The ad should emphasize style, comfort, and empowerment, as young women in this age group often look for products that complement their personal style and lifestyle.";
            "25-40" := "For women in this age group, the ad should focus on a balance of comfort, elegance, and professional appeal.";
            "40-60" := "The ad should emphasize comfort, sophistication, and practicality, appealing to women who value quality and timeless style.";
            "60+" := "The ad should highlight comfort, elegance, and the products ability to bring relaxation and ease to daily life." ]}.
Proof. reflexivity. Qed.

Lemma descriptions_male :
  descriptions !! "male" =
    Some {[ "9-18" := "The ad should appeal to young boys or teens, focusing on energy, coolness, and modern trends.";
            "18-25" := "The ad should focus on style, confidence, and boldness, appealing to young men who are exploring their identity and fashion preferences.";
            "25-40" := "For men in this age group, the ad should emphasize practicality, style, and versatility.";
            "40-60" := "The ad should appeal to men with a focus on quality, durability, and classic style, suitable for both personal and professional settings.";
            "60+" := "The ad should highlight comfort, ease of use, and thoughtful gifts for loved ones." ]}.
Proof. reflexivity. Qed.

Lemma descriptions_other_gender (g : string) :
  g <> "female" -> g <> "male" -> g <> "others" -> descriptions !! g = None.
Proof.
  intros H1 H2 H3. unfold descriptions.
  rewrite !lookup_insert_ne by done. by rewrite lookup_singleton_ne.
Qed.

Lemma age_group_cases (a : string) :
  a ∉ age_groups ->
  a <> "9-18" /\ a <> "18-25" /\ a <> "25-40" /\ a <> "40-60" /\ a <> "60+".
Proof.
  unfold age_groups. rewrite !not_elem_of_cons. tauto.
Qed.

(** X9. The targeting sentence is non-empty exactly for gender [others], and
    for [male] or [female] paired with one of the five age groups; the match
    is on the exact strings. *)
Theorem target_sentence_nonempty_iff (g a : string) :
  exists target,
    get_target_description g a = inr target
    /\ (target <> ""
        <-> g = "others" \/ ((g = "male" \/ g = "female") /\ a ∈ age_groups)).
Proof.
  destruct (decide (g = "others")) as [->|Ho].
  { eexists. split; [reflexivity|]. split; [by left | discriminate]. }
  unfold get_target_description. rewrite bool_decide_eq_false_2 by exact Ho.
  eexists. split; [reflexivity|].
  destruct (decide (g = "female")) as [->|Hf]; [|destruct (decide (g = "male")) as [->|Hm]].
  - rewrite descriptions_female. change (default ∅ (Some ?d)) with d.
    destruct (decide (a ∈ age_groups)) as [Hin|Hout].
    + unfold age_groups in Hin. rewrite !elem_of_cons, elem_of_nil in Hin.
      destruct Hin as [->|[->|[->|[->|[->|[]]]]]];
        (split; [intros _; right; split; [by right | unfold age_groups; set_solver]
                | intros _; discriminate]).
    + destruct (age_group_cases a Hout) as (H1 & H2 & H3 & H4 & H5).
      rewrite !lookup_insert_ne by done. rewrite lookup_singleton_ne by done.
      split; [done | intros [? | [_ ?]]; done].
  - rewrite descriptions_male. change (default ∅ (Some ?d)) with d.
    destruct (decide (a ∈ age_groups)) as [Hin|Hout].
    + unfold age_groups in Hin. rewrite !elem_of_cons, elem_of_nil in Hin.
      destruct Hin as [->|[->|[->|[->|[->|[]]]]]];
        (split; [intros _; right; split; [by left | unfold age_groups; set_solver]
                | intros _; discriminate]).
    + destruct (age_group_cases a Hout) as (H1 & H2 & H3 & H4 & H5).
      rewrite !lookup_insert_ne by done. rewrite lookup_singleton_ne by done.
      split; [done | intros [? | [_ ?]]; done].
  - rewrite (descriptions_other_gender g Hf Hm Ho).
    change (default ∅ (@None (gmap string string))) with (∅ : gmap string string).
    rewrite lookup_empty.
    split; [done | intros [? | [[?|?] _]]; done].
Qed.

Lemma target_sentence_nonempty_iff_witness :
  get_target_description "Male" "18-25" = inr ""
  /\ get_target_description "male" "*" = inr "".
Proof.
  split.
  - destruct (target_sentence_nonempty_iff "Male" "18-25") as (t & Ht & Hiff).
    rewrite Ht. f_equal. destruct (decide (t = "")) as [->|Hne]; [reflexivity|].
    apply Hiff in Hne as [Hne | [[Hne | Hne] _]]; discriminate Hne.
  - destruct (target_sentence_nonempty_iff "male" "*") as (t & Ht & Hiff).
    rewrite Ht. f_equal. destruct (decide (t = "")) as [->|Hne]; [reflexivity|].
    apply Hiff in Hne as [Hne | [_ Hne]]; [discriminate Hne|].
    unfold age_groups in Hne. rewrite !elem_of_cons, elem_of_nil in Hne.
    destruct Hne as [Hne|[Hne|[Hne|[Hne|[Hne|[]]]]]]; discriminate Hne.
Defined.

Lemma endswith_here (suffix : string) : endswith suffix suffix = true.
Proof.
  destruct suffix as [|c s]; [reflexivity|].
  cbn [endswith]. by rewrite String.eqb_refl.
Qed.

Lemma endswith_app_r (suffix p s : string) :
  endswith suffix s = true -> endswith suffix (p +:+ s) = true.
Proof.
  intros H. induction p as [|c p IH]; [done|].
  rewrite append_cons. cbn [endswith]. rewrite IH. apply orb_true_r.
Qed.

Ltac find_suffix :=
  first [ reflexivity | apply endswith_app_r; find_suffix ].

Lemma generate_simple_ad_draw (draw : nat) (pd : ProductRecord) (g a : string)
    (i : nat) (base target : string) :
  draw mod 5 = i ->
  ad_templates pd !! i = Some base ->
  get_target_description g a = inr target ->
  generate_simple_ad draw pd g a =
    inr (if PyStr.truthy target then base +:+ newline +:+ target else base).
Proof.
  intros Hi Hb Ht. unfold generate_simple_ad, random_choice.
  change (length (ad_templates pd)) with 5. rewrite Ht, Hi, Hb.
  by destruct (PyStr.truthy target).
Qed.

(** X10. With an absent or empty rating the templates keep the blanks that
    surround the rating clause: template 0 has two spaces in a row before
    [Available], and templates 1 and 3 end in a space when no targeting
    sentence follows. *)
Theorem absent_rating_leaves_blanks (draw : nat) (pd : ProductRecord) (g a : string) :
  productRating pd = None \/ productRating pd = Some "" ->
  exists ad,
    generate_simple_ad draw pd g a = inr ad
    /\ (draw mod 5 = 0 -> PyStr.contains "!  Available now at " ad = true)
    /\ (draw mod 5 = 1 \/ draw mod 5 = 3 ->
        get_target_description g a = inr "" ->
        endswith " " ad = true).
Proof.
  intros Hr.
  assert (rating_clause pd = "") as Hc.
  { unfold rating_clause. by destruct Hr as [-> | ->]. }
  destruct (generate_simple_ad_run draw pd g a) as (base & target & Hb & Ht & Hrun).
  eexists. split; [exact Hrun|].
  unfold ad_templates in Hb. rewrite Hc in Hb. split.
  - intros H0. rewrite H0 in Hb. cbn [lookup list_lookup] in Hb.
    injection Hb as <-.
    destruct (PyStr.truthy target); [apply contains_app_l|];
      do 2 apply contains_app_r; apply contains_here;
      exact (startswith_app "!  Available now at "
               (PyStr.str_of (productPrice pd) +:+ ".")).
  - intros H13 Hempty. rewrite Hempty in Ht. injection Ht as <-.
    cbn [PyStr.truthy].
    destruct H13 as [H|H]; rewrite H in Hb; cbn [lookup list_lookup] in Hb;
      injection Hb as <-; find_suffix.
Qed.

Lemma absent_rating_leaves_blanks_witness :
  exists ad,
    generate_simple_ad 1 (sample_record None (Some "$20")) "robot" "18-25" = inr ad
    /\ (1 mod 5 = 0 -> PyStr.contains "!  Available now at " ad = true)
    /\ (1 mod 5 = 1 \/ 1 mod 5 = 3 ->
        get_target_description "robot" "18-25" = inr "" ->
        endswith " " ad = true).
Proof.
  apply (absent_rating_leaves_blanks 1 (sample_record None (Some "$20"))
           "robot" "18-25").
  left. reflexivity.
Defined.

(** X11. Templates 2 and 4 do not mention the rating, and templates 1 and 3 do
    not mention the price: changing that field does not change the ad. *)
Theorem unused_fields_ignored (draw : nat) (pd : ProductRecord) (g a : string)
    (other : option string) :
  (draw mod 5 = 2 \/ draw mod 5 = 4 ->
   generate_simple_ad draw (with_rating pd other) g a = generate_simple_ad draw pd g a)
  /\ (draw mod 5 = 1 \/ draw mod 5 = 3 ->
      generate_simple_ad draw (with_price pd other) g a
      = generate_simple_ad draw pd g a).
Proof.
  destruct (get_target_description_total g a) as (target & Ht).
  split; intros [H|H];
    erewrite !(generate_simple_ad_draw draw _ g a _ _ target H); try exact Ht;
    try reflexivity.
Qed.

Lemma unused_fields_ignored_witness :
  generate_simple_ad 2 (with_rating (sample_record (Some "4.5") (Some "$20")) None)
    "male" "18-25"
  = generate_simple_ad 2 (sample_record (Some "4.5") (Some "$20")) "male" "18-25".
Proof.
  apply (proj1 (unused_fields_ignored 2 (sample_record (Some "4.5") (Some "$20"))
                  "male" "18-25" None)).
  left. reflexivity.
Defined.

(** * Further properties of the endpoint *)

Lemma contains_nonempty (sub s : string) :
  sub <> "" -> PyStr.contains sub s = true -> s <> "".
Proof. intros Hsub H ->. destruct sub; [done | discriminate H]. Qed.

(** X13. The endpoint returns a response exactly when the fetch and the parse
    succeed and the URL contains [//]; an empty URL never gets one. *)
Theorem create_ad_succeeds_iff (env : Env) (request : AdRequest) (s : State) :
  (exists response s', create_ad env request s = (inr response, s'))
  <-> (exists body soup,
         http_get env (req_url request) custom_headers = inr body
         /\ html_parse env body "lxml" = inr soup)
      /\ PyStr.contains "//" (req_url request) = true.
Proof.
  split.
  - intros (response & s' & Hrun).
    destruct (decide (req_url request = "")) as [Hempty|Hne].
    { unfold create_ad in Hrun. rewrite Hempty in Hrun. discriminate Hrun. }
    destruct (scrape_cases env (req_url request))
      as [(body & soup & b & Hg & Hp & Hb) | (cause & Hcause)].
    + split; [eauto|]. apply brand_name_of_inr_iff. eauto.
    + rewrite (create_ad_raises env request s cause Hne Hcause) in Hrun.
      discriminate Hrun.
  - intros [(body & soup & Hg & Hp) Hurl].
    assert (req_url request <> "") as Hne
      by exact (contains_nonempty "//" _ ltac:(discriminate) Hurl).
    destruct (brand_name_of_slashes _ Hurl) as (b & Hb).
    pose proof (create_ad_run env request s Hne) as Hrun.
    destruct (scrape_ok env (req_url request)
                (mkState (files s)
                   (stdout s ++ ["Received URL: " +:+ req_url request]) (fetched s))
                body soup b Hg Hp Hb) as (s1 & Hs1 & _).
    rewrite Hs1 in Hrun. destruct Hrun as (ad & _ & Hrun). eauto.
Qed.

Lemma create_ad_succeeds_iff_witness :
  exists response s',
    create_ad (page_env empty_soup)
      (mkAdRequest "https://www.amazon.com/dp/X" "male" "18-25") fresh_state
    = (inr response, s').
Proof.
  apply (proj2 (create_ad_succeeds_iff (page_env empty_soup)
                  (mkAdRequest "https://www.amazon.com/dp/X" "male" "18-25")
                  fresh_state)).
  split; [by exists "<html></html>", empty_soup | reflexivity].
Defined.

(** X14. A request with a non-empty URL makes exactly one network request, to
    that URL, whether it succeeds or fails; when it fails, every file is as
    before. *)
Theorem create_ad_one_request (env : Env) (request : AdRequest) (s : State)
    (result : exn + AdResponse) (s' : State) :
  req_url request <> "" ->
  create_ad env request s = (result, s') ->
  fetched s' = fetched s ++ [req_url request]
  /\ (forall e, result = inl e -> files s' = files s).
Proof.
  intros Hne Hrun.
  destruct (scrape_cases env (req_url request))
    as [(body & soup & b & Hg & Hp & Hb) | (cause & Hcause)].
  - pose proof (create_ad_run env request s Hne) as Hc.
    destruct (scrape_ok env (req_url request)
                (mkState (files s)
                   (stdout s ++ ["Received URL: " +:+ req_url request]) (fetched s))
                body soup b Hg Hp Hb) as (s1 & Hs1 & _ & Hfet & _).
    rewrite Hs1 in Hc. destruct Hc as (ad & _ & Hc).
    rewrite Hc in Hrun. injection Hrun as <- <-.
    cbn [files stdout fetched] in *. split; [exact Hfet | discriminate].
  - rewrite (create_ad_raises env request s cause Hne Hcause) in Hrun.
    injection Hrun as <- <-. cbn [files stdout fetched]. by split.
Qed.

Lemma create_ad_one_request_witness :
  fetched (create_ad offline_env
             (mkAdRequest "https://www.amazon.com/dp/X" "male" "18-25")
             fresh_state).2
  = fetched fresh_state ++ ["https://www.amazon.com/dp/X"]
  /\ (forall e,
        (create_ad offline_env
           (mkAdRequest "https://www.amazon.com/dp/X" "male" "18-25")
           fresh_state).1 = inl e ->
        files (create_ad offline_env
                 (mkAdRequest "https://www.amazon.com/dp/X" "male" "18-25")
                 fresh_state).2 = files fresh_state).
Proof.
  apply (create_ad_one_request offline_env
           (mkAdRequest "https://www.amazon.com/dp/X" "male" "18-25") fresh_state);
    [discriminate | reflexivity].
Defined.


(** * The rating text, with blanks on both sides *)

Lemma isspace_not_o (c : ascii) :
  PyStr.isspace c = true -> Ascii.eqb "o" c = false.
Proof. destruct c as [[] [] [] [] [] [] [] []]; (discriminate || reflexivity). Qed.

Lemma lstrip_decompose (s : string) :
  exists lead, all_chars PyStr.isspace lead = true /\ s = lead +:+ PyStr.lstrip s.
Proof.
  induction s as [|c s (lead & Hl & Hs)]; [by exists ""|].
  cbn [PyStr.lstrip]. destruct (PyStr.isspace c) eqn:Hc.
  - exists (String c lead). cbn [all_chars]. rewrite Hc, Hl, append_cons.
    by rewrite <- Hs.
  - by exists "".
Qed.

Lemma rstrip_decompose (s : string) :
  exists trail, all_chars PyStr.isspace trail = true /\ s = PyStr.rstrip s +:+ trail.
Proof.
  induction s as [|c s (trail & Ht & Hs)]; [by exists ""|].
  cbn [PyStr.rstrip]. destruct (PyStr.rstrip s) as [|a r].
  - rewrite append_nil_l in Hs. subst s. destruct (PyStr.isspace c) eqn:Hc.
    + exists (String c trail). cbn [all_chars]. by rewrite Hc, Ht.
    + by exists trail.
  - exists trail. split; [exact Ht|]. rewrite append_cons. by rewrite <- Hs.
Qed.

(** [strip] removes a run of whitespace at each end and nothing else. *)
Lemma strip_decompose (s : string) :
  exists lead trail,
    all_chars PyStr.isspace lead = true
    /\ all_chars PyStr.isspace trail = true
    /\ s = lead +:+ PyStr.strip s +:+ trail.
Proof.
  destruct (lstrip_decompose s) as (lead & Hl & Hs).
  destruct (rstrip_decompose (PyStr.lstrip s)) as (trail & Ht & Hr).
  exists lead, trail. unfold PyStr.strip. by rewrite <- Hr.
Qed.

Lemma lstrip_app_space (w x : string) :
  all_chars PyStr.isspace w = true -> PyStr.lstrip (w +:+ x) = PyStr.lstrip x.
Proof.
  induction w as [|c w IH]; [done|]. cbn [all_chars].
  intros [Hc Hw]%andb_true_iff. rewrite append_cons. cbn [PyStr.lstrip].
  by rewrite Hc, (IH Hw).
Qed.

Lemma rstrip_all_space (w : string) :
  all_chars PyStr.isspace w = true -> PyStr.rstrip w = "".
Proof.
  induction w as [|c w IH]; [done|]. cbn [all_chars].
  intros [Hc Hw]%andb_true_iff. cbn [PyStr.rstrip]. by rewrite (IH Hw), Hc.
Qed.

Lemma rstrip_app_space (x w : string) :
  all_chars PyStr.isspace w = true -> PyStr.rstrip (x +:+ w) = PyStr.rstrip x.
Proof.
  intros Hw. induction x as [|c x IH]; [by apply rstrip_all_space|].
  rewrite append_cons. cbn [PyStr.rstrip]. by rewrite IH.
Qed.

Lemma replace_scan_pass (old' new p s : string) :
  all_chars (fun c => negb (Ascii.eqb "o" c)) p = true ->
  PyStr.replace_scan (String "o" old') new 0 (p +:+ s)
  = p +:+ PyStr.replace_scan (String "o" old') new 0 s.
Proof.
  induction p as [|c p IH]; [done|]. cbn [all_chars].
  intros [Hc Hp]%andb_true_iff. rewrite !append_cons.
  cbn [PyStr.replace_scan PyStr.startswith].
  destruct (Ascii.eqb "o" c); [discriminate Hc|]. by rewrite (IH Hp).
Qed.

Lemma all_chars_impl (P Q : ascii -> bool) (s : string) :
  (forall c, P c = true -> Q c = true) ->
  all_chars P s = true -> all_chars Q s = true.
Proof.
  intros HPQ. induction s as [|c s IH]; [done|]. cbn [all_chars].
  intros [Hc Hs]%andb_true_iff. by rewrite (HPQ c Hc), (IH Hs).
Qed.

Lemma replace_suffix_padded (lead num trail : string) :
  all_chars PyStr.isspace lead = true ->
  all_chars numeric_char num = true ->
  all_chars PyStr.isspace trail = true ->
  PyStr.replace "out of 5 stars" ""
    (lead +:+ num +:+ " out of 5 stars" +:+ trail)
  = lead +:+ num +:+ " " +:+ trail.
Proof.
  intros Hl Hn Ht. unfold PyStr.replace.
  assert (forall s, all_chars PyStr.isspace s = true ->
            all_chars (fun c => negb (Ascii.eqb "o" c)) s = true) as Hsp.
  { intros s. apply all_chars_impl. intros c Hc. by rewrite (isspace_not_o c Hc). }
  assert (all_chars (fun c => negb (Ascii.eqb "o" c)) num = true) as Hnum.
  { revert Hn. apply all_chars_impl. intros c Hc. by rewrite (numeric_char_not_o c Hc). }
  rewrite (replace_scan_pass _ _ lead _ (Hsp lead Hl)).
  rewrite (replace_scan_pass _ _ num _ Hnum).
  change (PyStr.replace_scan "out of 5 stars" "" 0 (" out of 5 stars" +:+ trail))
    with (" " +:+ PyStr.replace_scan "out of 5 stars" "" 0 trail).
  rewrite <- (append_nil_r trail) at 1.
  rewrite (replace_scan_pass _ _ trail "" (Hsp trail Ht)).
  by rewrite append_nil_r.
Qed.

Lemma strip_padded (lead num trail : string) :
  all_chars PyStr.isspace lead = true ->
  all_chars numeric_char num = true ->
  all_chars PyStr.isspace trail = true ->
  PyStr.strip (lead +:+ num +:+ " " +:+ trail) = num.
Proof.
  intros Hl Hn Ht. unfold PyStr.strip. rewrite (lstrip_app_space lead _ Hl).
  assert (all_chars PyStr.isspace (" " +:+ trail) = true) as Hw by exact Ht.
  destruct num as [|c num].
  - rewrite append_nil_l.
    rewrite <- (append_nil_r (" " +:+ trail)), (lstrip_app_space _ "" Hw).
    reflexivity.
  - pose proof Hn as Hn'. cbn [all_chars] in Hn'.
    apply andb_true_iff in Hn' as [Hc _].
    rewrite append_cons. cbn [PyStr.lstrip].
    rewrite (numeric_char_not_space c Hc), <- append_cons.
    rewrite (rstrip_app_space _ _ Hw).
    rewrite <- (rstrip_app_space (String c num) " " eq_refl).
    by apply rstrip_numeric.
Qed.

(** C2. When the rating anchor carries a non-empty title text, the
    extracted rating is that text with every [out of 5 stars] removed and
    then stripped: what is left after taking a run of whitespace off the
    left end and a run of whitespace off the right end, with no whitespace
    remaining at either end.  For [4.5 out of 5 stars], also with blanks
    before and after it, the rating is [4.5]; in general, for a numeric
    portion followed by a space and the suffix, with any whitespace before
    and after, it is the numeric portion. *)
Theorem rating_suffix_stripped (env : Env) (url : string) (s : State)
    (body : string) (soup : Soup) (rating_element : Tag) (t : string) :
  http_get env url custom_headers = inr body ->
  html_parse env body "lxml" = inr soup ->
  select_one soup "#acrPopover" = Some rating_element ->
  attrs rating_element !! "title" = Some t ->
  t <> "" ->
  PyStr.contains "//" url = true ->
  exists r s',
    scrape_amazon_product env url s = (inr r, s')
    /\ productRating r
       = Some (PyStr.strip (PyStr.replace "out of 5 stars" "" t))
    /\ (t = "4.5 out of 5 stars" -> productRating r = Some "4.5")
    /\ (forall num,
          all_chars numeric_char num = true ->
          t = num +:+ " out of 5 stars" ->
          productRating r = Some num)
    /\ (exists rating lead trail,
          productRating r = Some rating
          /\ all_chars PyStr.isspace lead = true
          /\ all_chars PyStr.isspace trail = true
          /\ PyStr.replace "out of 5 stars" "" t = lead +:+ rating +:+ trail
          /\ starts_with_space rating = false
          /\ ends_with_space rating = false)
    /\ (t = "  4.5 out of 5 stars " -> productRating r = Some "4.5")
    /\ (forall lead num trail,
          all_chars PyStr.isspace lead = true ->
          all_chars numeric_char num = true ->
          all_chars PyStr.isspace trail = true ->
          t = lead +:+ num +:+ " out of 5 stars" +:+ trail ->
          productRating r = Some num).
Proof.
  intros Hget Hparse Hsel Hattr Ht Hurl.
  destruct (brand_name_of_slashes url Hurl) as (b & Hb).
  destruct (scrape_ok env url s body soup b Hget Hparse Hb) as (s' & Hrun & _).
  exists (record_of soup b), s'. split; [exact Hrun|].
  assert (productRating (record_of soup b)
          = Some (PyStr.strip (PyStr.replace "out of 5 stars" "" t))) as Hrate.
  { unfold record_of, scrape_rating, scrape_rating_text.
    cbn [productRating]. rewrite Hsel, Hattr.
    change (default "" (Some t)) with t. cbn [rating_of_text].
    destruct t; [done | reflexivity]. }
  rewrite Hrate. split; [reflexivity|]. split; [by intros ->|]. split.
  { intros num Hnum ->. by rewrite (replace_suffix_numeric num Hnum), strip_numeric. }
  split.
  { destruct (strip_decompose (PyStr.replace "out of 5 stars" "" t))
      as (lead & trail & Hl & Htr & Hdec).
    pose proof (strip_trimmed (PyStr.replace "out of 5 stars" "" t)) as Htrim.
    unfold trimmed in Htrim. apply andb_true_iff in Htrim as [H1 H2].
    apply negb_true_iff in H1, H2. eauto 10. }
  split; [by intros ->|].
  intros lead num trail Hl Hn Htr ->.
  by rewrite (replace_suffix_padded lead num trail Hl Hn Htr), strip_padded.
Qed.

Lemma rating_suffix_stripped_witness :
  exists r s',
    scrape_amazon_product (page_env padded_soup) "https://www.amazon.com/dp/X"
      fresh_state = (inr r, s')
    /\ productRating r = Some "4.5".
Proof.
  destruct (rating_suffix_stripped (page_env padded_soup)
              "https://www.amazon.com/dp/X" fresh_state "<html></html>" padded_soup
              (mkTag "" {[ "title" := "  4.5 out of 5 stars " ]})
              "  4.5 out of 5 stars "
              eq_refl eq_refl eq_refl eq_refl ltac:(discriminate) eq_refl)
    as (r & s' & Hrun & _ & _ & _ & _ & _ & Hpad).
  exists r, s'. split; [exact Hrun|].
  apply (Hpad "  " "4.5" " "); reflexivity.
Defined.

(** * The targeting line *)

(** C4. Gender [others] gets the one universal sentence for every age
    group; a pair that is not in the table (and whose gender is not
    [others]) gets the empty string, without an error; for a non-empty
    sentence the composer returns the drawn template, then one line feed
    character, then the sentence, and for an empty one the drawn template
    alone. *)
Theorem audience_sentence_lookup (draw : nat) (pd : ProductRecord) (g a : string) :
  get_target_description "others" a
  = inr "The ad should emphasize inclusivity, comfort, and a sense of belonging, appealing to individuals of diverse identities who value style and self-expression across all age groups."
  /\ (g <> "others" ->
      descriptions !! g ≫= (fun d => d !! a) = None ->
      get_target_description g a = inr "")
  /\ exists base target,
       random_choice draw (ad_templates pd) = inr base
       /\ get_target_description g a = inr target
       /\ (target <> "" ->
           generate_simple_ad draw pd g a = inr (base +:+ String "010"%char target))
       /\ (target = "" -> generate_simple_ad draw pd g a = inr base).
Proof.
  split; [reflexivity|]. split.
  - intros Hg Hnone. unfold get_target_description.
    rewrite bool_decide_eq_false_2 by exact Hg.
    destruct (descriptions !! g) as [d|]; cbn [mbind option_bind] in Hnone.
    + change (default ∅ (Some d)) with d. by rewrite Hnone.
    + change (default ∅ (@None (gmap string string))) with (∅ : gmap string string).
      by rewrite lookup_empty.
  - destruct (get_target_description_total g a) as (target & Ht).
    destruct (random_choice_templates draw pd) as (base & Hc & _).
    exists base, target. unfold generate_simple_ad. rewrite Ht, Hc.
    repeat split; [by destruct target | by intros ->].
Qed.

Lemma audience_sentence_lookup_witness :
  get_target_description "robot" "18-25" = inr ""
  /\ get_target_description "male" "0-9" = inr ""
  /\ generate_simple_ad 1 (sample_record None None) "male" "60+"
     = inr "Introducing the amazing Kettle - perfect for you! 
The ad should highlight comfort, ease of use, and thoughtful gifts for loved ones.".
Proof.
  split; [|split].
  - apply (proj1 (proj2 (audience_sentence_lookup 0 (sample_record None None)
                           "robot" "18-25"))); [discriminate | reflexivity].
  - apply (proj1 (proj2 (audience_sentence_lookup 0 (sample_record None None)
                           "male" "0-9"))); [discriminate | reflexivity].
  - destruct (proj2 (proj2 (audience_sentence_lookup 1 (sample_record None None)
                              "male" "60+")))
      as (base & target & Hbase & Htarget & Hline & _).
    injection Hbase as <-. injection Htarget as <-.
    rewrite Hline; [reflexivity | discriminate].
Defined.

(** * The log file *)

Lemma utf8_encode_app (a b : string) :
  utf8_encode (a +:+ b) = utf8_encode a ++ utf8_encode b.
Proof.
  induction a as [|c a IH]; [reflexivity|].
  rewrite append_cons. cbn [utf8_encode]. by rewrite IH, app_assoc.
Qed.

Lemma log_of_app (rows : list (list string)) (row : list string) :
  log_of (rows ++ [row]) = log_of rows ++ record_bytes row.
Proof.
  unfold log_of. rewrite fmap_app, concat_app. cbn [fmap list_fmap concat].
  by rewrite app_nil_r.
Qed.

(** A record of six cells: the six fields, commas between them, then
    carriage return and line feed. *)
Lemma csv_line_six (c1 c2 c3 c4 c5 c6 : string) :
  csv_line [c1; c2; c3; c4; c5; c6]
  = csv_field c1 +:+ "," +:+ csv_field c2 +:+ "," +:+ csv_field c3 +:+ ","
    +:+ csv_field c4 +:+ "," +:+ csv_field c5 +:+ "," +:+ csv_field c6
    +:+ String "013"%char (String "010"%char "").
Proof.
  unfold csv_line. cbn [fmap list_fmap csv_join].
  rewrite <- !append_assoc. by destruct (csv_field c1).
Qed.

(** A field without comma, quote, carriage return or line feed is written
    as it is. *)
Lemma csv_field_plain (field : string) :
  any_char needs_quoting field = false -> csv_field field = field.
Proof. unfold csv_field. by intros ->. Qed.

Lemma header_record_bytes :
  record_bytes header_row
  = list_byte_of_string "Title,Rating,Price,Image URL,Description,Product URL"
    ++ [x0d; x0a].
Proof. reflexivity. Qed.

(** C8, counterexample. On a log whose last line, of six cells, has no
    line terminator, a successful extraction leaves a file that is the text
    of a single row of eleven cells: the new text continues the last line. *)
Lemma unterminated_log_counterexample :
  exists r s',
    scrape_amazon_product (page_env empty_soup) "https://www.amazon.com/dp/X"
      unterminated_state = (inr r, s')
    /\ files unterminated_state !! default_filename
       = Some (list_byte_of_string "a,b,c,d,e,f")
    /\ files s' !! default_filename
       = Some (list_byte_of_string
                 "a,b,c,d,e,fNo title available,,,,,https://www.amazon.com/dp/X"
               ++ [x0d; x0a])
    /\ files s' !! default_filename
       = Some (log_of [["a"; "b"; "c"; "d"; "e"; "fNo title available"; ""; "";
                        ""; ""; "https://www.amazon.com/dp/X"]]).
Proof. eexists _, _. repeat split; reflexivity. Qed.

(** C8, as amended. A successful extraction appends the bytes of exactly
    one record at the end of the log file: the title, rating, price, image
    URL, description and product URL as scraped, in the order of the header,
    a missing rating, price, image or description written as the empty
    field (the description is not replaced by its placeholder), commas
    between the fields and carriage return, line feed at the end.  The
    header record is written before it when the file did not exist.  On a
    log that was missing or made of complete records the result is that log
    with one more row.  Other files are untouched, and the endpoint does not
    touch the log afterwards, whatever it returns. *)
Theorem extraction_appends_one_row (env : Env) (url : string) (s : State)
    (body : string) (soup : Soup) (r : ProductRecord) (s' : State) :
  http_get env url custom_headers = inr body ->
  html_parse env body "lxml" = inr soup ->
  scrape_amazon_product env url s = (inr r, s') ->
  let title_cell :=
    match select_one soup "#productTitle" with
    | Some title_element => PyStr.strip (text title_element)
    | None => "No title available"
    end in
  let description_cell :=
    match select_one soup "#feature-bullets" with
    | Some description_element => PyStr.strip (text description_element)
    | None => ""
    end in
  let row := [title_cell; default "" (productRating r);
              default "" (productPrice r); default "" (productImage r);
              description_cell; url] in
  let appended :=
    utf8_encode
      (csv_field title_cell +:+ "," +:+ csv_field (default "" (productRating r))
       +:+ "," +:+ csv_field (default "" (productPrice r))
       +:+ "," +:+ csv_field (default "" (productImage r))
       +:+ "," +:+ csv_field description_cell
       +:+ "," +:+ csv_field url
       +:+ String "013"%char (String "010"%char "")) in
  productName r = title_cell
  /\ (forall content,
        files s !! default_filename = Some content ->
        files s' !! default_filename = Some (content ++ appended))
  /\ (files s !! default_filename = None ->
      files s' !! default_filename =
        Some (list_byte_of_string
                "Title,Rating,Price,Image URL,Description,Product URL"
              ++ [x0d; x0a] ++ appended))
  /\ (forall rows,
        files s !! default_filename = Some (log_of rows) ->
        files s' !! default_filename = Some (log_of (rows ++ [row])))
  /\ (files s !! default_filename = None ->
      files s' !! default_filename =
        Some (log_of [["Title"; "Rating"; "Price"; "Image URL"; "Description";
                       "Product URL"]; row]))
  /\ (forall other, other <> default_filename ->
        files s' !! other = files s !! other)
  /\ (forall request s_in,
        req_url request = url ->
        url <> "" ->
        s = mkState (files s_in) (stdout s_in ++ ["Received URL: " +:+ url])
              (fetched s_in) ->
        files (create_ad env request s_in).2 = files s').
Proof.
  intros Hg Hp Hrun title_cell description_cell row appended.
  destruct (scrape_inr_inv env url s r s' Hrun)
    as (body' & soup' & b & Hg' & Hp' & Hb & ->).
  assert (body' = body) as -> by congruence.
  assert (soup' = soup) as -> by congruence.
  destruct (scrape_ok env url s body soup b Hg Hp Hb)
    as (s1 & Hs1 & _ & _ & Hrow & Hother).
  rewrite Hs1 in Hrun. injection Hrun as <-.
  assert (record_bytes (csv_row_of soup url) = appended) as Happ.
  { unfold record_bytes, csv_row_of. rewrite csv_line_six. subst appended.
    unfold record_of, scrape_title, scrape_description.
    cbn [productRating productPrice productImage].
    subst title_cell description_cell.
    destruct (select_one soup "#feature-bullets"); reflexivity. }
  assert (record_bytes row = appended) as Hrow6.
  { unfold record_bytes. subst row. by rewrite csv_line_six. }
  rewrite Happ in Hrow. unfold log_before in Hrow.
  split; [reflexivity|]. split; [|split; [|split; [|split; [|split]]]].
  - intros content Hc. by rewrite Hrow, Hc.
  - intros Hnone. by rewrite Hrow, Hnone, header_record_bytes, <- app_assoc.
  - intros rows Hc. by rewrite Hrow, Hc, log_of_app, Hrow6.
  - intros Hnone. rewrite Hrow, Hnone.
    unfold log_of. cbn [fmap list_fmap concat].
    by rewrite app_nil_r, Hrow6.
  - exact Hother.
  - intros request s_in Hreq Hurl ->. subst url.
    pose proof (create_ad_run env request s_in Hurl) as Hc.
    rewrite Hs1 in Hc. destruct Hc as (ad & _ & ->). reflexivity.
Qed.

Lemma extraction_appends_one_row_witness :
  files (scrape_amazon_product (page_env rated_soup) "https://www.amazon.com/dp/X"
           logged_state).2 !! default_filename
  = Some (list_byte_of_string
            "Title,Rating,Price,Image URL,Description,Product URL"
          ++ [x0d; x0a]
          ++ list_byte_of_string "Mug,4.0,$5,,,https://www.amazon.com/dp/M"
          ++ [x0d; x0a]
          ++ list_byte_of_string
               "No title available,4.5,,,,https://www.amazon.com/dp/X"
          ++ [x0d; x0a]).
Proof.
  destruct (extraction_appends_one_row (page_env rated_soup)
              "https://www.amazon.com/dp/X" logged_state "<html></html>" rated_soup
              (record_of rated_soup "Amazon.com")
              (scrape_amazon_product (page_env rated_soup)
                 "https://www.amazon.com/dp/X" logged_state).2
              eq_refl eq_refl eq_refl)
    as (_ & Hbytes & _).
  rewrite (Hbytes _ eq_refl). reflexivity.
Defined.

(** * Further properties of the log writer *)

Lemma save_to_csv_row (data : CsvData) (filename : string) (s : State) :
  exists s',
    save_to_csv data filename s = (inr tt, s')
    /\ stdout s' = stdout s
    /\ fetched s' = fetched s
    /\ files s' !! filename
       = Some (log_before s filename ++ record_bytes (data_row data))
    /\ (forall other, other <> filename -> files s' !! other = files s !! other).
Proof. exact (save_to_csv_run data filename s). Qed.

(** X1. Two calls in a row on the same file append the bytes of the two
    records, in call order, after whatever bytes the file held; the header
    record is written once, before them, and only if the file was missing;
    no other file changes. *)
Theorem save_to_csv_twice (d1 d2 : CsvData) (filename : string) (s : State) :
  exists s',
    (save_to_csv d1 filename ;; save_to_csv d2 filename) s = (inr tt, s')
    /\ (forall content,
          files s !! filename = Some content ->
          files s' !! filename
          = Some (content ++ record_bytes (data_row d1)
                  ++ record_bytes (data_row d2)))
    /\ (files s !! filename = None ->
        files s' !! filename
        = Some (list_byte_of_string
                  "Title,Rating,Price,Image URL,Description,Product URL"
                ++ [x0d; x0a] ++ record_bytes (data_row d1)
                ++ record_bytes (data_row d2)))
    /\ (forall other, other <> filename -> files s' !! other = files s !! other).
Proof.
  destruct (save_to_csv_row d1 filename s) as (s1 & Hr1 & _ & _ & Hf1 & Ho1).
  destruct (save_to_csv_row d2 filename s1) as (s2 & Hr2 & _ & _ & Hf2 & Ho2).
  exists s2. unfold bind. rewrite Hr1, Hr2. split; [reflexivity|].
  unfold log_before in Hf2. rewrite Hf1 in Hf2. unfold log_before in Hf2.
  split; [|split].
  - intros content Hc. rewrite Hf2, Hc. by rewrite <- app_assoc.
  - intros Hnone. rewrite Hf2, Hnone, header_record_bytes.
    by rewrite <- !app_assoc.
  - intros other Hne. by rewrite Ho2, Ho1.
Qed.

Lemma save_to_csv_twice_witness :
  exists s',
    (save_to_csv sample_data default_filename ;;
     save_to_csv sample_data default_filename) unterminated_state = (inr tt, s')
    /\ files s' !! default_filename
       = Some (list_byte_of_string
                 "a,b,c,d,e,fKettle,4.5,,,,https://www.amazon.com/dp/X"
               ++ [x0d; x0a]
               ++ list_byte_of_string "Kettle,4.5,,,,https://www.amazon.com/dp/X"
               ++ [x0d; x0a]).
Proof.
  destruct (save_to_csv_twice sample_data sample_data default_filename
              unterminated_state) as (s' & Hrun & Hbytes & _).
  exists s'. split; [exact Hrun|]. rewrite (Hbytes _ eq_refl). reflexivity.
Defined.



(** * Further properties of a failed extraction *)

(** X3. When the extractor raises, no file has changed, one request was
    made, and the one line printed is the fixed prefix followed by the text
    of the exception that the fetch, the parse or the brand-name step
    raised. *)
Theorem failed_extraction_leaves_log (env : Env) (url : string) (s : State)
    (e : exn) (s' : State) :
  scrape_amazon_product env url s = (inl e, s') ->
  files s' = files s
  /\ fetched s' = fetched s ++ [url]
  /\ exists cause,
       (http_get env url custom_headers = inl cause
        \/ (exists body,
              http_get env url custom_headers = inr body
              /\ html_parse env body "lxml" = inl cause)
        \/ (exists body soup,
              http_get env url custom_headers = inr body
              /\ html_parse env body "lxml" = inr soup
              /\ PyStr.contains "//" url = false
              /\ cause = PyError "list index out of range"))
       /\ stdout s' =
            stdout s ++ ["Error scraping product data: " +:+ str_exn env cause].
Proof.
  intros Hrun. destruct (scrape_inl_inv env url s e s' Hrun) as (c & Hc & _ & ->).
  cbn [files stdout fetched]. split; [reflexivity|]. split; [reflexivity|].
  exists c. split; [|reflexivity].
  destruct Hc as [H | [(body & H1 & H2) | (body & soup & H1 & H2 & H3)]];
    [by left | right; left; eauto |].
  right. right. exists body, soup.
  destruct (PyStr.contains "//" url) eqn:Hurl.
  - destruct (brand_name_of_slashes url Hurl) as (b & Hb). congruence.
  - rewrite (brand_name_of_no_slashes url Hurl) in H3. injection H3 as <-. eauto.
Qed.

Lemma failed_extraction_leaves_log_witness :
  files (scrape_amazon_product broken_parser_env "https://www.amazon.com/dp/X"
           logged_state).2 = files logged_state
  /\ stdout (scrape_amazon_product broken_parser_env "https://www.amazon.com/dp/X"
               logged_state).2
     = ["Error scraping product data: no parser"].
Proof.
  destruct (failed_extraction_leaves_log broken_parser_env
              "https://www.amazon.com/dp/X" logged_state scrape_error
              (scrape_amazon_product broken_parser_env
                 "https://www.amazon.com/dp/X" logged_state).2 eq_refl)
    as (Hfiles & _ & cause & Hcause & Hout).
  split; [exact Hfiles|]. rewrite Hout.
  destruct Hcause as [H | [(body & _ & H) | (body & soup & _ & H & _)]].
  - discriminate H.
  - injection H as <-. reflexivity.
  - discriminate H.
Defined.

(** * Further properties of the endpoint and the log *)

Lemma create_ad_ok (env : Env) (request : AdRequest) (s : State)
    (body : string) (soup : Soup) :
  http_get env (req_url request) custom_headers = inr body ->
  html_parse env body "lxml" = inr soup ->
  PyStr.contains "//" (req_url request) = true ->
  exists b ad s',
    brand_name_of (req_url request) = inr b
    /\ generate_simple_ad (random_draw env) (record_of soup b)
         (gender request) (ageGroup request) = inr ad
    /\ create_ad env request s = (inr (mkAdResponse (record_of soup b) ad), s')
    /\ stdout s' =
         stdout s ++
           ["Received URL: " +:+ req_url request;
            "Scraped Product Data: " +:+ repr_product env (record_of soup b)]
    /\ fetched s' = fetched s ++ [req_url request]
    /\ files s' !! default_filename =
         Some (log_before s default_filename
               ++ record_bytes (csv_row_of soup (req_url request)))
    /\ (forall other, other <> default_filename ->
          files s' !! other = files s !! other).
Proof.
  intros Hg Hp Hurl.
  assert (req_url request <> "") as Hne
    by exact (contains_nonempty "//" _ ltac:(discriminate) Hurl).
  destruct (brand_name_of_slashes _ Hurl) as (b & Hb).
  pose proof (create_ad_run env request s Hne) as Hrun.
  destruct (scrape_ok env (req_url request)
              (mkState (files s) (stdout s ++ ["Received URL: " +:+ req_url request])
                 (fetched s)) body soup b Hg Hp Hb)
    as (s1 & Hs1 & Hout & Hfet & Hrow & Hoth).
  rewrite Hs1 in Hrun. destruct Hrun as (ad & Had & Hrun).
  eexists b, ad, _. split; [exact Hb|]. split; [exact Had|]. split; [exact Hrun|].
  cbn [files stdout fetched] in *. rewrite Hout, Hfet, Hrow.
  repeat split; [by rewrite <- app_assoc | exact Hoth].
Qed.

(** X12. The whole successful request: with the fetch and the parse
    succeeding on a URL that contains [//], the endpoint returns the
    extractor's record with the composed ad, prints two lines, makes one
    request, and the log is the bytes it held (or the header record, if it
    was missing) followed by the bytes of the record of the page. *)
Theorem create_ad_success (env : Env) (request : AdRequest) (s : State)
    (body : string) (soup : Soup) :
  http_get env (req_url request) custom_headers = inr body ->
  html_parse env body "lxml" = inr soup ->
  PyStr.contains "//" (req_url request) = true ->
  exists b ad s',
    brand_name_of (req_url request) = inr b
    /\ generate_simple_ad (random_draw env) (record_of soup b)
         (gender request) (ageGroup request) = inr ad
    /\ create_ad env request s = (inr (mkAdResponse (record_of soup b) ad), s')
    /\ stdout s' =
         stdout s ++
           ["Received URL: " +:+ req_url request;
            "Scraped Product Data: " +:+ repr_product env (record_of soup b)]
    /\ fetched s' = fetched s ++ [req_url request]
    /\ (forall content,
          files s !! default_filename = Some content ->
          files s' !! default_filename =
            Some (content ++ record_bytes (csv_row_of soup (req_url request))))
    /\ (files s !! default_filename = None ->
        files s' !! default_filename =
          Some (list_byte_of_string
                  "Title,Rating,Price,Image URL,Description,Product URL"
                ++ [x0d; x0a]
                ++ record_bytes (csv_row_of soup (req_url request)))).
Proof.
  intros Hg Hp Hurl.
  destruct (create_ad_ok env request s body soup Hg Hp Hurl)
    as (b & ad & s' & Hb & Had & Hrun & Hout & Hfet & Hlog & _).
  exists b, ad, s'. unfold log_before in Hlog.
  repeat split; try assumption.
  - intros content Hc. by rewrite Hlog, Hc.
  - intros Hnone. by rewrite Hlog, Hnone, header_record_bytes, <- app_assoc.
Qed.

Lemma create_ad_success_witness :
  exists response s',
    create_ad (page_env rated_soup)
      (mkAdRequest "https://www.amazon.com/dp/X" "others" "") unterminated_state
    = (inr response, s')
    /\ files s' !! default_filename =
         Some (list_byte_of_string
                 "a,b,c,d,e,fNo title available,4.5,,,,https://www.amazon.com/dp/X"
               ++ [x0d; x0a]).
Proof.
  destruct (create_ad_success (page_env rated_soup)
              (mkAdRequest "https://www.amazon.com/dp/X" "others" "")
              unterminated_state "<html></html>" rated_soup
              eq_refl eq_refl eq_refl)
    as (b & ad & s' & _ & _ & Hrun & _ & _ & Hbytes & _).
  eexists _, s'. split; [exact Hrun|]. rewrite (Hbytes _ eq_refl). reflexivity.
Defined.



(** X16. Two successful requests in a row, possibly against a changed
    network: the log is the bytes it held (or the header record, if it was
    missing), then the bytes of the record of the first page, then those of
    the second; the two requests are made in that order. *)
Theorem two_requests_two_rows (env1 env2 : Env) (request1 request2 : AdRequest)
    (s : State) (body1 body2 : string) (soup1 soup2 : Soup) :
  http_get env1 (req_url request1) custom_headers = inr body1 ->
  html_parse env1 body1 "lxml" = inr soup1 ->
  PyStr.contains "//" (req_url request1) = true ->
  http_get env2 (req_url request2) custom_headers = inr body2 ->
  html_parse env2 body2 "lxml" = inr soup2 ->
  PyStr.contains "//" (req_url request2) = true ->
  exists response1 s1 response2 s2,
    create_ad env1 request1 s = (inr response1, s1)
    /\ create_ad env2 request2 s1 = (inr response2, s2)
    /\ (forall content,
          files s !! default_filename = Some content ->
          files s2 !! default_filename =
            Some (content
                  ++ record_bytes (csv_row_of soup1 (req_url request1))
                  ++ record_bytes (csv_row_of soup2 (req_url request2))))
    /\ (files s !! default_filename = None ->
        files s2 !! default_filename =
          Some (list_byte_of_string
                  "Title,Rating,Price,Image URL,Description,Product URL"
                ++ [x0d; x0a]
                ++ record_bytes (csv_row_of soup1 (req_url request1))
                ++ record_bytes (csv_row_of soup2 (req_url request2))))
    /\ fetched s2 = fetched s ++ [req_url request1; req_url request2].
Proof.
  intros Hg1 Hp1 Hu1 Hg2 Hp2 Hu2.
  destruct (create_ad_ok env1 request1 s body1 soup1 Hg1 Hp1 Hu1)
    as (b1 & ad1 & s1 & _ & _ & Hr1 & _ & Hf1 & Hl1 & _).
  destruct (create_ad_ok env2 request2 s1 body2 soup2 Hg2 Hp2 Hu2)
    as (b2 & ad2 & s2 & _ & _ & Hr2 & _ & Hf2 & Hl2 & _).
  eexists _, s1, _, s2. split; [exact Hr1|]. split; [exact Hr2|].
  unfold log_before in Hl2. rewrite Hl1 in Hl2. unfold log_before in Hl2.
  split; [|split].
  - intros content Hc. rewrite Hl2, Hc. by rewrite <- app_assoc.
  - intros Hnone. rewrite Hl2, Hnone, header_record_bytes.
    by rewrite <- !app_assoc.
  - rewrite Hf2, Hf1. by rewrite <- app_assoc.
Qed.

Lemma two_requests_two_rows_witness :
  exists response1 s1 response2 s2,
    create_ad (page_env empty_soup)
      (mkAdRequest "https://www.amazon.com/dp/X" "male" "18-25") fresh_state
    = (inr response1, s1)
    /\ create_ad (page_env rated_soup)
         (mkAdRequest "https://www.amazon.in/dp/Y" "others" "") s1
       = (inr response2, s2)
    /\ files s2 !! default_filename =
         Some (list_byte_of_string
                 "Title,Rating,Price,Image URL,Description,Product URL"
               ++ [x0d; x0a]
               ++ list_byte_of_string
                    "No title available,,,,,https://www.amazon.com/dp/X"
               ++ [x0d; x0a]
               ++ list_byte_of_string
                    "No title available,4.5,,,,https://www.amazon.in/dp/Y"
               ++ [x0d; x0a]).
Proof.
  destruct (two_requests_two_rows (page_env empty_soup) (page_env rated_soup)
              (mkAdRequest "https://www.amazon.com/dp/X" "male" "18-25")
              (mkAdRequest "https://www.amazon.in/dp/Y" "others" "")
              fresh_state "<html></html>" "<html></html>" empty_soup rated_soup
              eq_refl eq_refl eq_refl eq_refl eq_refl eq_refl)
    as (r1 & s1 & r2 & s2 & Hr1 & Hr2 & _ & Hnew & _).
  exists r1, s1, r2, s2. split; [exact Hr1|]. split; [exact Hr2|].
  rewrite (Hnew eq_refl). reflexivity.
Defined.
